(** * ShepStack: the generated AI client of the SupportAI example

    A shallow embedding of
    [src/shepstack/examples/support-ai/generated/ai_client.py]:
    the dispatcher [call_ai], its two provider adapters, and the generated
    field, rule and flow helpers that call it.

    Layout: the Python values the module handles (text, JSON-shaped values),
    the two library digests it calls ([hashlib.md5] and the builtin [hash]),
    a small program monad whose operations are the module's effects (the
    cache dictionary, the module globals, the HTTP POST), the functions of
    the module, and then the properties. *)

From Stdlib Require Import ZArith List String Ascii Lia.
From Stdlib Require Import DecimalString DecimalZ HexString.
From stdpp Require Import gmap finite.
Import ListNotations.

Local Open Scope Z_scope.
Set Warnings "-register-all".

(* ===================================================================== *)
(** ** Python text *)
(* ===================================================================== *)

(** A Python [str] is a sequence of Unicode code points. *)
Definition str : Type := list Z.

(** The literals of the module are ASCII; [lit] reads one. *)
Definition lit (s : string) : str :=
  map (fun a => Z.of_N (N_of_ascii a)) (list_ascii_of_string s).

Arguments lit s%_string.

(** [a == b] on text. *)
Definition str_eqb (a b : str) : bool := bool_decide (a = b).

(** Truth value of a text: the empty text is false. *)
Definition str_truthy (s : str) : bool :=
  match s with [] => false | _ :: _ => true end.

(** Truth value of an [Optional[str]]: [None] and the empty text are false. *)
Definition opt_truthy (o : option str) : bool :=
  match o with None => false | Some s => str_truthy s end.

(** [str(n)] for an integer. *)
Definition str_of_int (n : Z) : str := lit (NilZero.string_of_int (Z.to_int n)).

(** *** [str.encode()]: UTF-8 *)

Definition is_surrogate (c : Z) : bool := (0xD800 <=? c) && (c <=? 0xDFFF).

(** The bytes of one code point; a lone surrogate has none. *)
Definition utf8_char (c : Z) : option (list Z) :=
  if c <? 0x80 then Some [c]
  else if c <? 0x800 then
    Some [Z.lor 0xC0 (Z.shiftr c 6); Z.lor 0x80 (Z.land c 0x3F)]
  else if is_surrogate c then None
  else if c <? 0x10000 then
    Some [Z.lor 0xE0 (Z.shiftr c 12);
          Z.lor 0x80 (Z.land (Z.shiftr c 6) 0x3F);
          Z.lor 0x80 (Z.land c 0x3F)]
  else
    Some [Z.lor 0xF0 (Z.shiftr c 18);
          Z.lor 0x80 (Z.land (Z.shiftr c 12) 0x3F);
          Z.lor 0x80 (Z.land (Z.shiftr c 6) 0x3F);
          Z.lor 0x80 (Z.land c 0x3F)].

(** [s.encode()]; [None] stands for [UnicodeEncodeError]. *)
Fixpoint encode (s : str) : option (list Z) :=
  match s with
  | [] => Some []
  | c :: s' =>
      match utf8_char c, encode s' with
      | Some bs, Some rest => Some (bs ++ rest)
      | _, _ => None
      end
  end.

(** *** [str.strip()] *)

(** [c.isspace()], the code points CPython treats as whitespace. *)
Definition isspace (c : Z) : bool :=
  ((0x09 <=? c) && (c <=? 0x0D)) || ((0x1C <=? c) && (c <=? 0x20))
  || (c =? 0x85) || (c =? 0xA0) || (c =? 0x1680)
  || ((0x2000 <=? c) && (c <=? 0x200A))
  || (c =? 0x2028) || (c =? 0x2029) || (c =? 0x202F) || (c =? 0x205F)
  || (c =? 0x3000).

Fixpoint lstrip (s : str) : str :=
  match s with
  | c :: s' => if isspace c then lstrip s' else s
  | [] => []
  end.

Definition rstrip (s : str) : str := rev (lstrip (rev s)).

Definition strip (s : str) : str := rstrip (lstrip s).

(** *** [str.lower()] *)

Definition isascii (s : str) : bool := forallb (fun c => c <? 0x80) s.

Definition ascii_lower (c : Z) : Z :=
  if (0x41 <=? c) && (c <=? 0x5A) then c + 0x20 else c.

(* ===================================================================== *)
(** ** [hashlib.md5]: the MD5 message digest (RFC 1321) *)
(* ===================================================================== *)

Module MD5.

Definition wrap32 (x : Z) : Z := x mod 2 ^ 32.

Definition add32 (x y : Z) : Z := wrap32 (x + y).

Definition not32 (x : Z) : Z := Z.lxor x 0xFFFFFFFF.

Definition rotl32 (x : Z) (n : Z) : Z :=
  Z.lor (wrap32 (Z.shiftl x n)) (Z.shiftr x (32 - n)).

(** Per-round shift amounts. *)
Definition S : list Z :=
  [7; 12; 17; 22; 7; 12; 17; 22; 7; 12; 17; 22; 7; 12; 17; 22;
   5; 9; 14; 20; 5; 9; 14; 20; 5; 9; 14; 20; 5; 9; 14; 20;
   4; 11; 16; 23; 4; 11; 16; 23; 4; 11; 16; 23; 4; 11; 16; 23;
   6; 10; 15; 21; 6; 10; 15; 21; 6; 10; 15; 21; 6; 10; 15; 21].

(** [K i = floor (2^32 * |sin (i + 1)|)]. *)
Definition K : list Z :=
  [0xd76aa478; 0xe8c7b756; 0x242070db; 0xc1bdceee; 0xf57c0faf; 0x4787c62a; 0xa8304613; 0xfd469501;
   0x698098d8; 0x8b44f7af; 0xffff5bb1; 0x895cd7be; 0x6b901122; 0xfd987193; 0xa679438e; 0x49b40821;
   0xf61e2562; 0xc040b340; 0x265e5a51; 0xe9b6c7aa; 0xd62f105d; 0x02441453; 0xd8a1e681; 0xe7d3fbc8;
   0x21e1cde6; 0xc33707d6; 0xf4d50d87; 0x455a14ed; 0xa9e3e905; 0xfcefa3f8; 0x676f02d9; 0x8d2a4c8a;
   0xfffa3942; 0x8771f681; 0x6d9d6122; 0xfde5380c; 0xa4beea44; 0x4bdecfa9; 0xf6bb4b60; 0xbebfbc70;
   0x289b7ec6; 0xeaa127fa; 0xd4ef3085; 0x04881d05; 0xd9d4d039; 0xe6db99e5; 0x1fa27cf8; 0xc4ac5665;
   0xf4292244; 0x432aff97; 0xab9423a7; 0xfc93a039; 0x655b59c3; 0x8f0ccc92; 0xffeff47d; 0x85845dd1;
   0x6fa87e4f; 0xfe2ce6e0; 0xa3014314; 0x4e0811a1; 0xf7537e82; 0xbd3af235; 0x2ad7d2bb; 0xeb86d391].

(** The chaining value: four 32-bit words. *)
Record state := St { sa : Z; sb : Z; sc : Z; sd : Z }.

Definition init : state :=
  St 0x67452301 0xefcdab89 0x98badcfe 0x10325476.

(** Little-endian bytes of a [n]-byte word, and back. *)
Fixpoint le_bytes (n : nat) (x : Z) : list Z :=
  match n with
  | O => []
  | Datatypes.S n' => Z.land x 0xFF :: le_bytes n' (Z.shiftr x 8)
  end.

Fixpoint le_word (bs : list Z) : Z :=
  match bs with
  | [] => 0
  | b :: bs' => Z.lor b (Z.shiftl (le_word bs') 8)
  end.

(** Append the 1 bit, zeros up to 56 mod 64, and the bit length. *)
Definition pad (msg : list Z) : list Z :=
  let len := Z.of_nat (length msg) in
  let zeros := Z.to_nat ((55 - len) mod 64) in
  msg ++ [0x80] ++ repeat 0 zeros ++ le_bytes 8 ((8 * len) mod 2 ^ 64).

(** The sixteen words of a 64-byte block. *)
Fixpoint words (n : nat) (block : list Z) : list Z :=
  match n with
  | O => []
  | Datatypes.S n' => le_word (firstn 4 block) :: words n' (skipn 4 block)
  end.

(** Cut the padded message in 64-byte blocks. *)
Fixpoint blocks (n : nat) (bytes : list Z) : list (list Z) :=
  match n with
  | O => []
  | Datatypes.S n' => firstn 64 bytes :: blocks n' (skipn 64 bytes)
  end.

(** One of the 64 operations on block [M]. *)
Definition step (M : list Z) (st : state) (i : Z) : state :=
  let '(St A B C D) := st in
  let '(F, g) :=
    if i <? 16 then (Z.lor (Z.land B C) (Z.land (not32 B) D), i)
    else if i <? 32 then (Z.lor (Z.land D B) (Z.land (not32 D) C), (5 * i + 1) mod 16)
    else if i <? 48 then (Z.lxor (Z.lxor B C) D, (3 * i + 5) mod 16)
    else (Z.lxor C (Z.lor B (not32 D)), (7 * i) mod 16) in
  let F := add32 (add32 (add32 F A) (nth (Z.to_nat i) K 0)) (nth (Z.to_nat g) M 0) in
  St D (add32 B (rotl32 F (nth (Z.to_nat i) S 0))) B C.

Definition rounds : list Z := map Z.of_nat (seq 0 64).

(** Absorb one block. *)
Definition compress (st : state) (block : list Z) : state :=
  let '(St A B C D) := fold_left (step (words 16 block)) rounds st in
  St (add32 (sa st) A) (add32 (sb st) B) (add32 (sc st) C) (add32 (sd st) D).

Definition digest_state (msg : list Z) : state :=
  let p := pad msg in
  fold_left compress (blocks (length p / 64) p) init.

(** The 16 digest bytes. *)
Definition digest (msg : list Z) : list Z :=
  let '(St A B C D) := digest_state msg in
  le_bytes 4 A ++ le_bytes 4 B ++ le_bytes 4 C ++ le_bytes 4 D.

Definition hex_digit (n : Z) : Z :=
  if n <? 10 then 0x30 + n else 0x61 + (n - 10).

(** [hashlib.md5(msg).hexdigest()]: 32 lower-case hexadecimal digits. *)
Definition hexdigest (msg : list Z) : str :=
  flat_map (fun b => [hex_digit (Z.shiftr b 4); hex_digit (Z.land b 0xF)]) (digest msg).

End MD5.

(* ===================================================================== *)
(** ** The builtin [hash] on text: CPython's keyed SipHash-1-3 *)
(* ===================================================================== *)

Module PyHash.

Definition wrap64 (x : Z) : Z := x mod 2 ^ 64.

Definition rotl64 (x : Z) (b : Z) : Z :=
  Z.lor (wrap64 (Z.shiftl x b)) (Z.shiftr x (64 - b)).

(** The hash secret of a process, [_Py_HashSecret.siphash]: drawn from the
    operating system's random source when the interpreter starts, or from
    [PYTHONHASHSEED] when that is set. *)
Record secret := Secret { k0 : Z; k1 : Z }.

Definition half_round (a b c d s t : Z) : Z * Z * Z * Z :=
  let a := wrap64 (a + b) in
  let c := wrap64 (c + d) in
  let b := Z.lxor (rotl64 b s) a in
  let d := Z.lxor (rotl64 d t) c in
  (rotl64 a 32, b, c, d).

Definition single_round (v : Z * Z * Z * Z) : Z * Z * Z * Z :=
  let '(v0, v1, v2, v3) := v in
  let '(v0, v1, v2, v3) := half_round v0 v1 v2 v3 13 16 in
  let '(v2, v1, v0, v3) := half_round v2 v1 v0 v3 17 21 in
  (v0, v1, v2, v3).

(** Absorb one little-endian 64-bit word. *)
Definition absorb (v : Z * Z * Z * Z) (mi : Z) : Z * Z * Z * Z :=
  let '(v0, v1, v2, v3) := v in
  let '(v0, v1, v2, v3) := single_round (v0, v1, v2, Z.lxor v3 mi) in
  (Z.lxor v0 mi, v1, v2, v3).

(** The full 8-byte words of the input, then the tail of fewer than 8. *)
Fixpoint absorb_all (n : nat) (v : Z * Z * Z * Z) (src : list Z)
  : (Z * Z * Z * Z) * list Z :=
  match n with
  | O => (v, src)
  | S n' => absorb_all n' (absorb v (MD5.le_word (firstn 8 src))) (skipn 8 src)
  end.

Definition siphash13 (k : secret) (src : list Z) : Z :=
  let b := wrap64 (Z.shiftl (Z.of_nat (length src)) 56) in
  let v := (Z.lxor (k0 k) 0x736f6d6570736575, Z.lxor (k1 k) 0x646f72616e646f6d,
            Z.lxor (k0 k) 0x6c7967656e657261, Z.lxor (k1 k) 0x7465646279746573) in
  let '(v, tail) := absorb_all (length src / 8) v src in
  let b := Z.lor b (MD5.le_word tail) in
  let '(v0, v1, v2, v3) := absorb v b in
  let v := single_round (single_round (single_round (v0, v1, Z.lxor v2 0xff, v3))) in
  let '(v0, v1, v2, v3) := v in
  Z.lxor (Z.lxor v0 v1) (Z.lxor v2 v3).

(** The bytes CPython keeps for a text: 1, 2 or 4 bytes per code point,
    by the largest code point in it. *)
Definition kind (s : str) : nat :=
  let m := fold_right Z.max 0 s in
  if m <? 0x100 then 1%nat else if m <? 0x10000 then 2%nat else 4%nat.

Definition unicode_data (s : str) : list Z :=
  flat_map (MD5.le_bytes (kind s)) s.

(** Read an unsigned 64-bit word as [Py_hash_t]. *)
Definition to_signed64 (x : Z) : Z :=
  if x <? 2 ^ 63 then x else x - 2 ^ 64.

(** [hash(s)] in a process whose secret is [k]. *)
Definition hash (k : secret) (s : str) : Z :=
  match s with
  | [] => 0
  | _ =>
      let x := to_signed64 (siphash13 k (unicode_data s)) in
      if x =? -1 then -2 else x
  end.

(** The secret of a process started with [PYTHONHASHSEED=seed]:
    all zero for seed 0, else the first 16 bytes of a linear
    congruential generator. *)
Fixpoint lcg_urandom (n : nat) (x : Z) : list Z :=
  match n with
  | O => []
  | S n' =>
      let x := (x * 214013 + 2531011) mod 2 ^ 32 in
      Z.land (Z.shiftr x 16) 0xff :: lcg_urandom n' x
  end.

Definition secret_of_seed (seed : Z) : secret :=
  if seed =? 0 then Secret 0 0
  else
    let buf := lcg_urandom 24 seed in
    Secret (MD5.le_word (firstn 8 buf)) (MD5.le_word (firstn 8 (skipn 8 buf))).

End PyHash.

(* ===================================================================== *)
(** ** Values, exceptions and HTTP messages *)
(* ===================================================================== *)

(** Python values of JSON shape: what [response.json()] yields, what the
    [json=] argument of a POST carries, and what the cache stores
    ([dict[str, Any]]). A float is kept as its [repr] text. *)
Inductive pyval : Type :=
| PNone
| PBool (b : bool)
| PInt (n : Z)
| PFloat (repr : str)
| PStr (s : str)
| PList (l : list pyval)
| PDict (d : list (str * pyval)).

(** The exceptions the module can let through. *)
Inductive exn : Type :=
| UnicodeEncodeError
| UnboundLocalError
| KeyError
| IndexError
| TypeError
| AttributeError
| ValueError
| JSONDecodeError
| HTTPStatusError (status : Z)
| TransportError (what : str).

Definition result (A : Type) : Type := exn + A.

(** Sequencing of steps that may raise. *)
Definition rbind {A B : Type} (r : result A) (f : A -> result B) : result B :=
  match r with inl e => inl e | inr a => f a end.

Declare Scope result_scope.
Delimit Scope result_scope with result.
Bind Scope result_scope with result.
Notation "x <- r ;; q" := (rbind r (fun x => q))
  (at level 100, r at next level, right associativity) : result_scope.

(** [d[k]] for the items of a dict. *)
Fixpoint dict_get (d : list (str * pyval)) (k : str) : option pyval :=
  match d with
  | [] => None
  | (k', v) :: d' => if str_eqb k' k then Some v else dict_get d' k
  end.

(** [v[k]] with a text subscript. *)
Definition getitem_str (v : pyval) (k : str) : result pyval :=
  match v with
  | PDict d => match dict_get d k with Some x => inr x | None => inl KeyError end
  | _ => inl TypeError
  end.

(** [v[0]]. *)
Definition getitem_0 (v : pyval) : result pyval :=
  match v with
  | PList (x :: _) => inr x
  | PList [] => inl IndexError
  | PStr (c :: _) => inr (PStr [c])
  | PStr [] => inl IndexError
  | PDict _ => inl KeyError
  | _ => inl TypeError
  end.

(** The arguments of [client.post(url, headers=, json=, timeout=)]. *)
Record request : Type := Request {
  url : str;
  headers : list (str * str);
  json : pyval;
  timeout : Z
}.

(** An HTTP response: its status and its body read as JSON ([None] when the
    body is not JSON). *)
Record response : Type := Response {
  status_code : Z;
  body : option pyval
}.

(** [response.raise_for_status()] of httpx: any status outside 200..299
    raises. *)
Definition raise_for_status (r : response) : result unit :=
  if (200 <=? status_code r) && (status_code r <=? 299) then inr tt
  else inl (HTTPStatusError (status_code r)).

(** [response.json()]. *)
Definition response_json (r : response) : result pyval :=
  match body r with Some v => inr v | None => inl JSONDecodeError end.

(* ===================================================================== *)
(** ** Programs: the effects of the module *)
(* ===================================================================== *)

(** The module globals read when a function runs. *)
Inductive global : Type := G_AI_PROVIDER | G_ANTHROPIC_API_KEY | G_OPENAI_API_KEY.

(** A computation of the module: it ends with a value or an exception, or
    performs one effect and goes on with its answer. No function of the
    module catches an exception, so [Raise] ends the computation. *)
Inductive prog (A : Type) : Type :=
| Ret (a : A)
| Raise (e : exn)
| ReadGlobal (g : global) (k : str -> prog A)
| CacheContains (key : str) (k : bool -> prog A)
| CacheGet (key : str) (k : pyval -> prog A)
| CacheSet (key : str) (v : pyval) (k : prog A)
| Post (req : request) (k : response -> prog A)
| Hash (s : str) (k : Z -> prog A).

Arguments Ret {A} a.
Arguments Raise {A} e.
Arguments ReadGlobal {A} g k.
Arguments CacheContains {A} key k.
Arguments CacheGet {A} key k.
Arguments CacheSet {A} key v k.
Arguments Post {A} req k.
Arguments Hash {A} s k.

Fixpoint bind {A B : Type} (p : prog A) (f : A -> prog B) : prog B :=
  match p with
  | Ret a => f a
  | Raise e => Raise e
  | ReadGlobal g k => ReadGlobal g (fun x => bind (k x) f)
  | CacheContains key k => CacheContains key (fun x => bind (k x) f)
  | CacheGet key k => CacheGet key (fun x => bind (k x) f)
  | CacheSet key v k => CacheSet key v (bind k f)
  | Post req k => Post req (fun x => bind (k x) f)
  | Hash s k => Hash s (fun x => bind (k x) f)
  end.

Declare Scope prog_scope.
Delimit Scope prog_scope with prog.
Notation "x <- p ;; q" := (bind p (fun x => q))
  (at level 100, p at next level, right associativity) : prog_scope.
Notation "p ;;; q" := (bind p (fun _ => q))
  (at level 100, right associativity) : prog_scope.
Local Open Scope prog_scope.

(** Lift a pure step that may raise. *)
Definition lift {A : Type} (r : result A) : prog A :=
  match r with inl e => Raise e | inr a => Ret a end.

Definition read_global (g : global) : prog str := ReadGlobal g Ret.
Definition cache_contains (key : str) : prog bool := CacheContains key Ret.
Definition cache_get (key : str) : prog pyval := CacheGet key Ret.
Definition cache_set (key : str) (v : pyval) : prog unit := CacheSet key v (Ret tt).
Definition post (req : request) : prog response := Post req Ret.
Definition py_hash (s : str) : prog Z := Hash s Ret.

(** *** Running a program in a process *)

(** The state of the Python process that the module touches: its three
    configuration globals, the cache dictionary and the interpreter's hash
    secret. *)
Record process : Type := Process {
  AI_PROVIDER : str;
  ANTHROPIC_API_KEY : str;
  OPENAI_API_KEY : str;
  _ai_cache : gmap str pyval;
  hash_secret : PyHash.secret
}.

Definition global_value (w : process) (g : global) : str :=
  match g with
  | G_AI_PROVIDER => AI_PROVIDER w
  | G_ANTHROPIC_API_KEY => ANTHROPIC_API_KEY w
  | G_OPENAI_API_KEY => OPENAI_API_KEY w
  end.

Definition with_cache (w : process) (c : gmap str pyval) : process :=
  Process (AI_PROVIDER w) (ANTHROPIC_API_KEY w) (OPENAI_API_KEY w) c (hash_secret w).

(** What a run did, in order. *)
Inductive event : Type :=
| EGlobal (g : global)
| ECacheContains (key : str)
| ECacheGet (key : str)
| ECacheSet (key : str) (v : pyval)
| EPost (req : request)
| EHash (s : str).

(** The requests posted in a trace. *)
Fixpoint posts (tr : list event) : list request :=
  match tr with
  | [] => []
  | EPost req :: tr' => req :: posts tr'
  | _ :: tr' => posts tr'
  end.

Definition is_cache_event (e : event) : bool :=
  match e with
  | ECacheContains _ | ECacheGet _ | ECacheSet _ _ => true
  | _ => false
  end.

(** The outside world: what a POST meets, given the requests posted before
    it. It answers with a response, or the transport fails (connection
    error, the 30 second timeout). *)
Definition network : Type := list request -> request -> result response.

Record outcome (A : Type) : Type := Outcome {
  final : process;
  trace : list event;
  value : result A
}.

Arguments Outcome {A} final trace value.
Arguments final {A} o.
Arguments trace {A} o.
Arguments value {A} o.

(** [run net p w tr]: run [p] in process [w] after the events [tr]. The
    trace of the outcome extends [tr]. *)
Fixpoint run {A : Type} (net : network) (p : prog A) (w : process) (tr : list event)
  : outcome A :=
  match p with
  | Ret a => Outcome w tr (inr a)
  | Raise e => Outcome w tr (inl e)
  | ReadGlobal g k => run net (k (global_value w g)) w (tr ++ [EGlobal g])
  | CacheContains key k =>
      run net (k (bool_decide (is_Some (_ai_cache w !! key)))) w (tr ++ [ECacheContains key])
  | CacheGet key k =>
      match _ai_cache w !! key with
      | Some v => run net (k v) w (tr ++ [ECacheGet key])
      | None => Outcome w (tr ++ [ECacheGet key]) (inl KeyError)
      end
  | CacheSet key v k =>
      run net k (with_cache w (<[key := v]> (_ai_cache w))) (tr ++ [ECacheSet key v])
  | Post req k =>
      match net (posts tr) req with
      | inr resp => run net (k resp) w (tr ++ [EPost req])
      | inl e => Outcome w (tr ++ [EPost req]) (inl e)
      end
  | Hash s k => run net (k (PyHash.hash (hash_secret w) s)) w (tr ++ [EHash s])
  end.

(* ===================================================================== *)
(** ** The module [ai_client] *)
(* ===================================================================== *)

Definition nl : str := [0x0A].
Definition dquote : str := [0x22].

(** The one prompt-shaping rule, shared by both adapters:
    [f"{prompt}\n\nContext: {context}" if context else prompt]. *)
Definition user_content (prompt context : str) : str :=
  if str_truthy context then prompt ++ nl ++ nl ++ lit "Context: " ++ context
  else prompt.

Definition claude_request (api_key prompt context : str) : request :=
  Request (lit "https://api.anthropic.com/v1/messages")
    [(lit "x-api-key", api_key);
     (lit "anthropic-version", lit "2023-06-01");
     (lit "content-type", lit "application/json")]
    (PDict [(lit "model", PStr (lit "claude-3-haiku-20240307"));
            (lit "max_tokens", PInt 1024);
            (lit "messages",
              PList [PDict [(lit "role", PStr (lit "user"));
                            (lit "content", PStr (user_content prompt context))]])])
    30.

(** After the POST: [raise_for_status()], [json()], then
    [data["content"][0]["text"]]. *)
Definition claude_extract (response : response) : result pyval :=
  (_ <- raise_for_status response ;;
  data <- response_json response ;;
  content <- getitem_str data (lit "content") ;;
  first <- getitem_0 content ;;
  getitem_str first (lit "text"))%result.

Definition _call_claude (prompt context : str) : prog pyval :=
  api_key <- read_global G_ANTHROPIC_API_KEY ;;
  response <- post (claude_request api_key prompt context) ;;
  lift (claude_extract response).

Definition openai_request (api_key prompt context : str) : request :=
  Request (lit "https://api.openai.com/v1/chat/completions")
    [(lit "Authorization", lit "Bearer " ++ api_key);
     (lit "Content-Type", lit "application/json")]
    (PDict [(lit "model", PStr (lit "gpt-3.5-turbo"));
            (lit "messages",
              PList [PDict [(lit "role", PStr (lit "user"));
                            (lit "content", PStr (user_content prompt context))]]);
            (lit "max_tokens", PInt 1024)])
    30.

(** After the POST: [raise_for_status()], [json()], then
    [data["choices"][0]["message"]["content"]]. *)
Definition openai_extract (response : response) : result pyval :=
  (_ <- raise_for_status response ;;
  data <- response_json response ;;
  choices <- getitem_str data (lit "choices") ;;
  first <- getitem_0 choices ;;
  message <- getitem_str first (lit "message") ;;
  getitem_str message (lit "content"))%result.

Definition _call_openai (prompt context : str) : prog pyval :=
  api_key <- read_global G_OPENAI_API_KEY ;;
  response <- post (openai_request api_key prompt context) ;;
  lift (openai_extract response).

(** How an f-string renders an [Optional[str]]. *)
Definition format_opt (o : option str) : str :=
  match o with Some s => s | None => lit "None" end.

(** [f"{cache_key}:{prompt}:{context}"]. *)
Definition cache_message (cache_key prompt context : str) : str :=
  cache_key ++ lit ":" ++ prompt ++ lit ":" ++ context.

(** [hashlib.md5(f"{cache_key}:{prompt}:{context}".encode()).hexdigest()]. *)
Definition cache_id_of (cache_key prompt context : str) : result str :=
  match encode (cache_message cache_key prompt context) with
  | Some bytes => inr (MD5.hexdigest bytes)
  | None => inl UnicodeEncodeError
  end.

(** [call_ai] from the provider selection on; [cache_id] is bound when the
    first [if cache_key:] was taken. *)
Definition call_provider (prompt context : str) (cache_key : option str)
    (cache_id : option str) : prog pyval :=
  provider <- read_global G_AI_PROVIDER ;;
  result <- (if str_eqb provider (lit "claude")
             then _call_claude prompt context
             else _call_openai prompt context) ;;
  (if opt_truthy cache_key then
     match cache_id with
     | Some id => cache_set id result
     | None => Raise UnboundLocalError
     end
   else Ret tt) ;;;
  Ret result.

Definition call_ai (prompt context : str) (cache_key : option str) : prog pyval :=
  if opt_truthy cache_key then
    cache_id <- lift (cache_id_of (format_opt cache_key) prompt context) ;;
    hit <- cache_contains cache_id ;;
    if hit : bool then cache_get cache_id
    else call_provider prompt context cache_key (Some cache_id)
  else call_provider prompt context cache_key None.

(** *** [json.dumps] on values of JSON shape *)

Module Json.

Definition hex4 (n : Z) : str :=
  map (fun k => MD5.hex_digit (Z.land (Z.shiftr n k) 0xF)) [12; 8; 4; 0].

(** One character of [py_encode_basestring_ascii]. *)
Definition escape_char (c : Z) : str :=
  if c =? 0x5C then lit "\\"
  else if c =? 0x22 then lit "\" ++ dquote
  else if c =? 0x08 then lit "\b"
  else if c =? 0x0C then lit "\f"
  else if c =? 0x0A then lit "\n"
  else if c =? 0x0D then lit "\r"
  else if c =? 0x09 then lit "\t"
  else if (0x20 <=? c) && (c <=? 0x7E) then [c]
  else if c <? 0x10000 then lit "\u" ++ hex4 c
  else
    let n := c - 0x10000 in
    lit "\u" ++ hex4 (Z.lor 0xD800 (Z.land (Z.shiftr n 10) 0x3FF))
    ++ lit "\u" ++ hex4 (Z.lor 0xDC00 (Z.land n 0x3FF)).

Definition encode_basestring_ascii (s : str) : str :=
  dquote ++ flat_map escape_char s ++ dquote.

Definition float_text (repr : str) : str :=
  if str_eqb repr (lit "nan") then lit "NaN"
  else if str_eqb repr (lit "inf") then lit "Infinity"
  else if str_eqb repr (lit "-inf") then lit "-Infinity"
  else repr.

Fixpoint join (sep : str) (parts : list str) : str :=
  match parts with
  | [] => []
  | [x] => x
  | x :: rest => x ++ sep ++ join sep rest
  end.

(** [json.dumps(v)] with the default separators and [ensure_ascii]. *)
Fixpoint dumps (v : pyval) : str :=
  match v with
  | PNone => lit "null"
  | PBool true => lit "true"
  | PBool false => lit "false"
  | PInt n => str_of_int n
  | PFloat r => float_text r
  | PStr s => encode_basestring_ascii s
  | PList l => lit "[" ++ join (lit ", ") (map dumps l) ++ lit "]"
  | PDict d =>
      lit "{"
      ++ join (lit ", ")
           (map (fun kv => encode_basestring_ascii (fst kv) ++ lit ": " ++ dumps (snd kv)) d)
      ++ lit "}"
  end.

End Json.

(** *** The generated helpers *)

Section Helpers.

(** [str.lower()] on a text that is not all ASCII follows the Unicode
    character database, which is no part of the module. *)
Variable unicode_lower : str -> str.

(** [json.dumps(data, default=str)] on the caller's dictionary; it can
    raise on keys that are no JSON keys. *)
Variable Data : Type.
Variable json_dumps : Data -> result str.

Definition lower (s : str) : str :=
  if isascii s then map ascii_lower s else unicode_lower s.

(** [result.strip().lower() == "true"]; a value that is no text has no
    [strip]. *)
Definition is_true_text (v : pyval) : prog bool :=
  match v with
  | PStr s => Ret (str_eqb (lower (strip s)) (lit "true"))
  | _ => Raise AttributeError
  end.

Definition SENTIMENT_PROMPT : str :=
  lit "classify as positive, neutral, or negative" ++ nl ++ nl
  ++ lit "Respond with only the result, no explanation.".

Definition SUMMARY_PROMPT : str :=
  lit "summarize in one sentence" ++ nl ++ nl
  ++ lit "Respond with only the result, no explanation.".

(** [f"{prefix}{hash(context) if context else 'empty'}"]. *)
Definition field_cache_key (prefix context : str) : prog str :=
  if str_truthy context then
    h <- py_hash context ;; Ret (prefix ++ str_of_int h)
  else Ret (prefix ++ lit "empty").

Definition compute_message_sentiment (data : Data) : prog pyval :=
  context <- lift (json_dumps data) ;;
  cache_key <- field_cache_key (lit "Message_sentiment_") context ;;
  call_ai SENTIMENT_PROMPT context (Some cache_key).

Definition compute_message_summary (data : Data) : prog pyval :=
  context <- lift (json_dumps data) ;;
  cache_key <- field_cache_key (lit "Message_summary_") context ;;
  call_ai SUMMARY_PROMPT context (Some cache_key).

(** The rule prompts are plain string literals, not f-strings. *)
Definition rule_prompt (what : str) : str :=
  lit "Analyze this text and determine if it: " ++ what ++ nl ++ nl
  ++ lit "Text: {message_content}" ++ nl ++ nl
  ++ lit "Respond with only " ++ dquote ++ lit "true" ++ dquote
  ++ lit " or " ++ dquote ++ lit "false" ++ dquote ++ lit ".".

Definition RULE_1_PROMPT : str := rule_prompt (lit "sounds frustrated or angry").
Definition RULE_2_PROMPT : str := rule_prompt (lit "looks like spam or marketing").

Definition check_rule_1 (message_content : str) : prog bool :=
  h <- py_hash message_content ;;
  result <- call_ai RULE_1_PROMPT [] (Some (lit "rule_1_" ++ str_of_int h)) ;;
  is_true_text result.

Definition check_rule_2 (message_content : str) : prog bool :=
  h <- py_hash message_content ;;
  result <- call_ai RULE_2_PROMPT [] (Some (lit "rule_2_" ++ str_of_int h)) ;;
  is_true_text result.

Definition flow_prompt (action : str) : str :=
  action ++ nl ++ nl ++ lit "Provide a clear, actionable response.".

Definition flow_step (action cache_key : str) (context : Data) : prog pyval :=
  text <- lift (json_dumps context) ;;
  call_ai (flow_prompt action) text (Some cache_key).

Definition flow_company_uploads_knowledge_base_step_5 : Data -> prog pyval :=
  flow_step (lit "indexes it for search")
            (lit "flow_company_uploads_knowledge_base_step_5").

Definition flow_customer_asks_a_question_step_3 : Data -> prog pyval :=
  flow_step (lit "search knowledge base for relevant articles")
            (lit "flow_customer_asks_a_question_step_3").

Definition flow_customer_asks_a_question_step_4 : Data -> prog pyval :=
  flow_step (lit "generate answer based on knowledge base context")
            (lit "flow_customer_asks_a_question_step_4").

Definition flow_ai_escalates_to_agent_step_1 : Data -> prog pyval :=
  flow_step (lit "confidence score below 60 percent")
            (lit "flow_ai_escalates_to_agent_step_1").

End Helpers.

(* ===================================================================== *)
(** ** Vocabulary of the properties *)
(* ===================================================================== *)

(** The adapter [call_ai] selects in process [w]: its request, the global
    holding its credential, and how it reads the response. *)
Definition uses_claude (w : process) : bool := str_eqb (AI_PROVIDER w) (lit "claude").

Definition selected_request (w : process) (prompt context : str) : request :=
  if uses_claude w then claude_request (ANTHROPIC_API_KEY w) prompt context
  else openai_request (OPENAI_API_KEY w) prompt context.

Definition selected_credential (w : process) : global :=
  if uses_claude w then G_ANTHROPIC_API_KEY else G_OPENAI_API_KEY.

Definition selected_extract (w : process) : response -> result pyval :=
  if uses_claude w then claude_extract else openai_extract.

Definition selected_adapter (w : process) : str -> str -> prog pyval :=
  if uses_claude w then _call_claude else _call_openai.

(** The events of a provider call. *)
Definition provider_events (w : process) (prompt context : str) : list event :=
  [EGlobal G_AI_PROVIDER; EGlobal (selected_credential w);
   EPost (selected_request w prompt context)].

(** What the selected adapter returns in [w] after the events [tr]. *)
Definition adapter_result (net : network) (w : process) (tr : list event)
    (prompt context : str) : result pyval :=
  (response <- net (posts tr) (selected_request w prompt context) ;;
   selected_extract w response)%result.

(** The text of the single user message of a request body:
    [json["messages"][0]["content"]]. *)
Definition sent_text (req : request) : result pyval :=
  (messages <- getitem_str (json req) (lit "messages") ;;
   first <- getitem_0 messages ;;
   getitem_str first (lit "content"))%result.

(** The same process with another provider configured. *)
Definition with_provider (w : process) (provider : str) : process :=
  Process provider (ANTHROPIC_API_KEY w) (OPENAI_API_KEY w) (_ai_cache w) (hash_secret w).

(** The same process with another hash secret. *)
Definition with_secret (w : process) (k : PyHash.secret) : process :=
  Process (AI_PROVIDER w) (ANTHROPIC_API_KEY w) (OPENAI_API_KEY w) (_ai_cache w) k.

(** A process and two networks to try the module on: the Claude endpoint
    answering with one text block, and an endpoint answering with a bare
    status. *)
Definition demo_process : process :=
  Process (lit "claude") (lit "sk-ant-demo") (lit "sk-demo") ∅ (PyHash.secret_of_seed 1).

Definition claude_reply (text : str) : response :=
  Response 200
    (Some (PDict [(lit "id", PStr (lit "msg_01"));
                  (lit "content",
                    PList [PDict [(lit "type", PStr (lit "text"));
                                  (lit "text", PStr text)]])])).

Definition net_claude_says (text : str) : network := fun _ _ => inr (claude_reply text).

Definition net_status (code : Z) : network := fun _ _ => inr (Response code None).

(** The process [demo_process] is in after one answered invocation. *)
Definition warm_process : process :=
  final (run (net_claude_says (lit "positive"))
             (call_ai (lit "classify") (lit "I love this!")
                (Some (lit "Message_sentiment_123"))) demo_process []).

(** Cache idempotence read to the letter: two invocations in a row with
    the same present hint, prompt and context post exactly one request in
    total, and have the same outcome. *)
Definition stated_cache_idempotence (net : network) (w : process)
    (prompt context hint : str) : Prop :=
  let o1 := run net (call_ai prompt context (Some hint)) w [] in
  let o2 := run net (call_ai prompt context (Some hint)) (final o1) (trace o1) in
  length (posts (trace o2)) = 1%nat /\ value o2 = value o1.

(** "Requests that differ only in context are never aliased" read to the
    letter: distinct contexts never share a key. *)
Definition stated_context_never_aliased : Prop :=
  forall hint prompt context1 context2 id1 id2,
    str_truthy hint = true ->
    context1 <> context2 ->
    cache_id_of hint prompt context1 = inr id1 ->
    cache_id_of hint prompt context2 = inr id2 ->
    id1 <> id2.

(** The chaining value as one number below [2 ^ 128]. *)
Definition state_value (st : MD5.state) : Z :=
  MD5.sa st + 2 ^ 32 * MD5.sb st + 2 ^ 64 * MD5.sc st + 2 ^ 96 * MD5.sd st.

(** The words of a digest are 32-bit words. *)
Definition state_in_range (st : MD5.state) : Prop :=
  (0 <= MD5.sa st < 2 ^ 32) /\ (0 <= MD5.sb st < 2 ^ 32) /\
  (0 <= MD5.sc st < 2 ^ 32) /\ (0 <= MD5.sd st < 2 ^ 32).

(** The number of MD5 digests. *)
Definition digest_count : nat := Z.to_nat (2 ^ 128).

(** A family of pairwise distinct contexts: the binary digits of a positive
    number, lowest first, without its leading one. *)
Fixpoint binary_text (p : positive) : str :=
  match p with
  | xH => []
  | xO q => 0x30 :: binary_text q
  | xI q => 0x31 :: binary_text q
  end.

(** The message digested for the context [binary_text (i + 1)] under the
    hint "h" and the prompt "p". *)
Definition numbered_message (i : nat) : str :=
  cache_message (lit "h") (lit "p") (binary_text (Pos.of_succ_nat i)).

(** The code points a Python [str] can hold. *)
Definition code_point (c : Z) : Prop := 0 <= c < 0x110000.

Definition well_formed (s : str) : Prop := Forall code_point s.

(** A program that keeps every cache entry it finds, changes nothing else
    in the process, and posts at most one request. *)
Definition frugal {A : Type} (p : prog A) : Prop :=
  forall (net : network) (w : process) (tr : list event),
    let o := run net p w tr in
    _ai_cache w ⊆ _ai_cache (final o) /\
    with_cache (final o) (_ai_cache w) = w /\
    (posts (trace o) = posts tr \/ exists req, posts (trace o) = posts tr ++ [req]).


(** A lower-case hexadecimal digit. *)
Definition hex_char (c : Z) : Prop := (0x30 <= c <= 0x39) \/ (0x61 <= c <= 0x66).

Definition hex_charb (c : Z) : bool :=
  ((0x30 <=? c) && (c <=? 0x39)) || ((0x61 <=? c) && (c <=? 0x66)).

(** The Claude endpoint answering with a text block whose text is [null]. *)
Definition net_claude_null : network :=
  fun _ _ =>
    inr (Response 200
           (Some (PDict [(lit "content", PList [PDict [(lit "text", PNone)]])]))).

(** The keys of the cache operations in a trace. *)
Fixpoint cache_keys (tr : list event) : list str :=
  match tr with
  | [] => []
  | (ECacheContains k | ECacheGet k | ECacheSet k _) :: tr' => k :: cache_keys tr'
  | _ :: tr' => cache_keys tr'
  end.

(* ===================================================================== *)
(** ** Checks of the library models against CPython 3.11 *)
(* ===================================================================== *)

Example md5_empty : MD5.hexdigest [] = lit "d41d8cd98f00b204e9800998ecf8427e".
Proof. vm_compute. reflexivity. Qed.

Example md5_abc : MD5.hexdigest (lit "abc") = lit "900150983cd24fb0d6963f7d28e17f72".
Proof. vm_compute. reflexivity. Qed.

Example hash_abc_seed0 :
  PyHash.hash (PyHash.secret_of_seed 0) (lit "abc") = -4594863902769663758.
Proof. vm_compute. reflexivity. Qed.

Example hash_abc_seed1 :
  PyHash.hash (PyHash.secret_of_seed 1) (lit "abc") = -4667308735975688587.
Proof. vm_compute. reflexivity. Qed.

(** A two-block message, and one with code points of two, three and four
    bytes ("h", e acute, the euro sign, a grinning face). *)
Example md5_two_blocks :
  MD5.hexdigest (repeat 0x61 64) = lit "014842d480b571495a4a0363793f7367".
Proof. vm_compute. reflexivity. Qed.

Example md5_of_encoded :
  option_map MD5.hexdigest (encode [0x68; 0xE9; 0x20AC; 0x1F600]) =
  Some (lit "d0c8028dc1ea664817dc280ffbd0780a").
Proof. vm_compute. reflexivity. Qed.

(** [hash] on text kept with one, two and four bytes per code point. *)
Example hash_wide_seed42 :
  PyHash.hash (PyHash.secret_of_seed 42) [0x68; 0xE9] = 3595417813867130984 /\
  PyHash.hash (PyHash.secret_of_seed 42) [0x68; 0xE9; 0x20AC] = (-5416920429709829446) /\
  PyHash.hash (PyHash.secret_of_seed 42) [0x68; 0xE9; 0x20AC; 0x1F600] = (-5143167564092629200).
Proof. vm_compute. repeat split. Qed.

Example str_of_int_negative : str_of_int (-42) = lit "-42".
Proof. vm_compute. reflexivity. Qed.

(* ===================================================================== *)
(** ** Running the module's functions *)
(* ===================================================================== *)

Lemma posts_app (tr1 tr2 : list event) : posts (tr1 ++ tr2) = posts tr1 ++ posts tr2.
Proof.
  induction tr1 as [|e tr1 IH]; [reflexivity|].
  destruct e; simpl; rewrite IH; reflexivity.
Qed.

Lemma cache_keys_app (tr1 tr2 : list event) :
  cache_keys (tr1 ++ tr2) = cache_keys tr1 ++ cache_keys tr2.
Proof.
  induction tr1 as [|e tr1 IH]; [reflexivity|].
  destruct e; simpl; rewrite IH; reflexivity.
Qed.

(** Running [bind p f] runs [p], and [f] on its value if it has one. *)
Lemma run_bind {A B : Type} (net : network) (p : prog A) (f : A -> prog B) :
  forall w tr,
    run net (bind p f) w tr =
    match value (run net p w tr) with
    | inr a => run net (f a) (final (run net p w tr)) (trace (run net p w tr))
    | inl e => Outcome (final (run net p w tr)) (trace (run net p w tr)) (inl e)
    end.
Proof.
  induction p as [a|e|g k IH|key k IH|key k IH|key v k IH|req k IH|s k IH];
    intros w tr; simpl; try reflexivity; try apply IH.
  - destruct (_ai_cache w !! key); [apply IH | reflexivity].
  - destruct (net (posts tr) req); [reflexivity | apply IH].
Qed.

Lemma run_lift {A : Type} (net : network) (r : result A) w tr :
  run net (lift r) w tr = Outcome w tr r.
Proof. destruct r; reflexivity. Qed.

(** A run only appends to the trace. *)
Lemma run_trace_extends {A : Type} (net : network) (p : prog A) :
  forall w tr, exists evs, trace (run net p w tr) = tr ++ evs.
Proof.
  induction p as [a|e|g k IH|key k IH|key k IH|key v k IH|req k IH|s k IH];
    intros w tr; simpl.
  - exists []. symmetry; apply app_nil_r.
  - exists []. symmetry; apply app_nil_r.
  - destruct (IH (global_value w g) w (tr ++ [EGlobal g])) as [evs ->].
    rewrite <- app_assoc. eauto.
  - destruct (IH (bool_decide (is_Some (_ai_cache w !! key))) w (tr ++ [ECacheContains key]))
      as [evs ->].
    rewrite <- app_assoc. eauto.
  - destruct (_ai_cache w !! key) as [v|]; simpl; [|eauto].
    destruct (IH v w (tr ++ [ECacheGet key])) as [evs ->].
    rewrite <- app_assoc. eauto.
  - destruct (IH (with_cache w (<[key:=v]> (_ai_cache w))) (tr ++ [ECacheSet key v]))
      as [evs ->].
    rewrite <- app_assoc. eauto.
  - destruct (net (posts tr) req) as [e|resp]; simpl; [eauto|].
    destruct (IH resp w (tr ++ [EPost req])) as [evs ->].
    rewrite <- app_assoc. eauto.
  - destruct (IH (PyHash.hash (hash_secret w) s) w (tr ++ [EHash s])) as [evs ->].
    rewrite <- app_assoc. eauto.
Qed.

(** The Claude adapter reads its credential, posts one request, and reads
    the answer. It leaves the process as it was. *)
Lemma run_call_claude (net : network) (prompt context : str) w tr :
  run net (_call_claude prompt context) w tr =
  let req := claude_request (ANTHROPIC_API_KEY w) prompt context in
  Outcome w (tr ++ [EGlobal G_ANTHROPIC_API_KEY; EPost req])
    (rbind (net (posts tr) req) claude_extract).
Proof.
  unfold _call_claude, read_global, post. simpl.
  rewrite posts_app, app_nil_r, <- app_assoc. simpl.
  destruct (net (posts tr) _) as [e|resp]; simpl; [reflexivity|].
  apply run_lift.
Qed.

Lemma run_call_openai (net : network) (prompt context : str) w tr :
  run net (_call_openai prompt context) w tr =
  let req := openai_request (OPENAI_API_KEY w) prompt context in
  Outcome w (tr ++ [EGlobal G_OPENAI_API_KEY; EPost req])
    (rbind (net (posts tr) req) openai_extract).
Proof.
  unfold _call_openai, read_global, post. simpl.
  rewrite posts_app, app_nil_r, <- app_assoc. simpl.
  destruct (net (posts tr) _) as [e|resp]; simpl; [reflexivity|].
  apply run_lift.
Qed.

Lemma run_read_global (net : network) g w tr :
  run net (read_global g) w tr = Outcome w (tr ++ [EGlobal g]) (inr (global_value w g)).
Proof. reflexivity. Qed.

Lemma run_cache_contains (net : network) key w tr :
  run net (cache_contains key) w tr =
  Outcome w (tr ++ [ECacheContains key]) (inr (bool_decide (is_Some (_ai_cache w !! key)))).
Proof. reflexivity. Qed.

Lemma run_cache_get (net : network) key w tr :
  run net (cache_get key) w tr =
  Outcome w (tr ++ [ECacheGet key])
    (match _ai_cache w !! key with Some v => inr v | None => inl KeyError end).
Proof. unfold cache_get; simpl. destruct (_ai_cache w !! key); reflexivity. Qed.

Lemma run_cache_set (net : network) key v w tr :
  run net (cache_set key v) w tr =
  Outcome (with_cache w (<[key:=v]> (_ai_cache w))) (tr ++ [ECacheSet key v]) (inr tt).
Proof. reflexivity. Qed.

Lemma run_py_hash (net : network) s w tr :
  run net (py_hash s) w tr =
  Outcome w (tr ++ [EHash s]) (inr (PyHash.hash (hash_secret w) s)).
Proof. reflexivity. Qed.

Lemma run_ret {A : Type} (net : network) (a : A) w tr :
  run net (Ret a) w tr = Outcome w tr (inr a).
Proof. reflexivity. Qed.

Lemma run_raise {A : Type} (net : network) (e : exn) w tr :
  run net (@Raise A e) w tr = Outcome w tr (inl e).
Proof. reflexivity. Qed.

(** Symbolic execution of the straight-line parts. *)
Ltac run_steps :=
  repeat first
    [ rewrite run_bind
    | rewrite run_read_global
    | rewrite run_cache_contains
    | rewrite run_cache_get
    | rewrite run_cache_set
    | rewrite run_py_hash
    | rewrite run_lift
    | rewrite run_ret
    | rewrite run_raise
    | rewrite run_call_claude
    | rewrite run_call_openai
    | progress cbn [value final trace] ].

(** [call_ai] from the provider selection on. *)
Lemma run_call_provider (net : network) (prompt context : str)
    (cache_key cache_id : option str) w tr :
  run net (call_provider prompt context cache_key cache_id) w tr =
  let tr' := tr ++ provider_events w prompt context in
  match adapter_result net w tr prompt context with
  | inl e => Outcome w tr' (inl e)
  | inr v =>
      if opt_truthy cache_key then
        match cache_id with
        | Some id =>
            Outcome (with_cache w (<[id:=v]> (_ai_cache w))) (tr' ++ [ECacheSet id v]) (inr v)
        | None => Outcome w tr' (inl UnboundLocalError)
        end
      else Outcome w tr' (inr v)
  end.
Proof.
  unfold call_provider, adapter_result, provider_events,
    selected_request, selected_credential, selected_extract, uses_claude.
  run_steps. cbn [global_value].
  destruct (str_eqb (AI_PROVIDER w) (lit "claude")); run_steps;
    rewrite posts_app, app_nil_r, <- app_assoc; cbn [app];
    (match goal with |- context [rbind ?r ?f] => destruct (rbind r f) as [e|v] end;
     [reflexivity|]);
    (destruct (opt_truthy cache_key); run_steps; [|reflexivity]);
    destruct cache_id; run_steps; reflexivity.
Qed.

Lemma run_selected_adapter (net : network) (prompt context : str) w tr :
  run net (selected_adapter w prompt context) w tr =
  Outcome w (tr ++ [EGlobal (selected_credential w); EPost (selected_request w prompt context)])
    (adapter_result net w tr prompt context).
Proof.
  unfold adapter_result, selected_adapter, selected_credential, selected_request,
    selected_extract.
  destruct (uses_claude w); [apply run_call_claude | apply run_call_openai].
Qed.

Lemma adapter_result_posts (net : network) w tr1 tr2 prompt context :
  posts tr1 = posts tr2 ->
  adapter_result net w tr1 prompt context = adapter_result net w tr2 prompt context.
Proof. unfold adapter_result. intros ->. reflexivity. Qed.

(** *** The four ways through [call_ai] *)

(** No hint: the provider call alone. *)
Lemma run_call_ai_no_hint (net : network) prompt context cache_key w tr :
  opt_truthy cache_key = false ->
  run net (call_ai prompt context cache_key) w tr =
  Outcome w (tr ++ provider_events w prompt context)
    (adapter_result net w tr prompt context).
Proof.
  intros Hk. unfold call_ai. rewrite Hk, run_call_provider, Hk. cbn zeta.
  destruct (adapter_result net w tr prompt context); reflexivity.
Qed.

(** A hint whose message cannot be encoded: nothing else happens. *)
Lemma run_call_ai_unencodable (net : network) prompt context hint e w tr :
  str_truthy hint = true ->
  cache_id_of hint prompt context = inl e ->
  run net (call_ai prompt context (Some hint)) w tr = Outcome w tr (inl e).
Proof.
  intros Hk Hid. unfold call_ai. cbn [opt_truthy format_opt]. rewrite Hk.
  run_steps. rewrite Hid. reflexivity.
Qed.

(** A hit: one membership test, one read, no provider call. *)
Lemma run_call_ai_hit (net : network) prompt context hint id v w tr :
  str_truthy hint = true ->
  cache_id_of hint prompt context = inr id ->
  _ai_cache w !! id = Some v ->
  run net (call_ai prompt context (Some hint)) w tr =
  Outcome w (tr ++ [ECacheContains id; ECacheGet id]) (inr v).
Proof.
  intros Hk Hid Hv. unfold call_ai. cbn [opt_truthy format_opt]. rewrite Hk.
  run_steps. rewrite Hid. run_steps. rewrite Hv.
  rewrite bool_decide_true by eauto. run_steps. rewrite Hv, <- app_assoc.
  reflexivity.
Qed.

(** A miss: the provider call, and the cache filled when it returns. *)
Lemma run_call_ai_miss (net : network) prompt context hint id w tr :
  str_truthy hint = true ->
  cache_id_of hint prompt context = inr id ->
  _ai_cache w !! id = None ->
  run net (call_ai prompt context (Some hint)) w tr =
  let tr' := tr ++ ECacheContains id :: provider_events w prompt context in
  match adapter_result net w tr prompt context with
  | inl e => Outcome w tr' (inl e)
  | inr v => Outcome (with_cache w (<[id:=v]> (_ai_cache w))) (tr' ++ [ECacheSet id v]) (inr v)
  end.
Proof.
  intros Hk Hid Hv. unfold call_ai. cbn [opt_truthy format_opt]. rewrite Hk.
  run_steps. rewrite Hid. run_steps. rewrite Hv.
  rewrite bool_decide_false by (intros [? ?]; discriminate).
  rewrite run_call_provider. cbn [opt_truthy]. rewrite Hk. cbn zeta.
  rewrite (adapter_result_posts net w (tr ++ [ECacheContains id]) tr)
    by (rewrite posts_app; apply app_nil_r).
  rewrite <- app_assoc. reflexivity.
Qed.

Lemma posts_provider_events w prompt context :
  posts (provider_events w prompt context) = [selected_request w prompt context].
Proof. reflexivity. Qed.

Lemma cache_keys_provider_events w prompt context :
  cache_keys (provider_events w prompt context) = [].
Proof. reflexivity. Qed.

(* ===================================================================== *)
(** ** The dispatcher and the adapters *)
(* ===================================================================== *)

(** C2. No caching without a hint. When [cache_key] is absent or empty, an
    invocation of [call_ai] performs no operation on the cache (no
    membership test, no read, no write) and leaves the cache, in fact the
    whole process, as it was. *)
Theorem call_ai_no_hint_no_cache (net : network) (prompt context : str)
    (cache_key : option str) (w : process) (tr : list event) :
  cache_key = None \/ cache_key = Some [] ->
  let o := run net (call_ai prompt context cache_key) w tr in
  exists evs,
    trace o = tr ++ evs /\
    cache_keys evs = [] /\
    Forall (fun e => is_cache_event e = false) evs /\
    _ai_cache (final o) = _ai_cache w /\
    final o = w.
Proof.
  intros Hk o.
  assert (Hf : opt_truthy cache_key = false) by (destruct Hk as [-> | ->]; reflexivity).
  subst o. rewrite (run_call_ai_no_hint net _ _ _ _ _ Hf). cbn [trace final].
  exists (provider_events w prompt context).
  repeat split; try reflexivity.
  unfold provider_events. repeat constructor.
Qed.

Lemma call_ai_no_hint_no_cache_witness :
  (Some ([] : str) = None \/ Some ([] : str) = Some []) /\
  let o := run (net_claude_says (lit "positive"))
               (call_ai (lit "classify") (lit "I love this!") (Some [])) demo_process [] in
  exists evs,
    trace o = [] ++ evs /\
    cache_keys evs = [] /\
    Forall (fun e => is_cache_event e = false) evs /\
    _ai_cache (final o) = _ai_cache demo_process /\
    final o = demo_process.
Proof.
  split; [right; reflexivity|].
  apply (call_ai_no_hint_no_cache (net_claude_says (lit "positive"))
           (lit "classify") (lit "I love this!") (Some []) demo_process []).
  right; reflexivity.
Defined.

(** C3. Payload shaping. Each adapter posts exactly one request, and the
    text of its single user message is the prompt, then two newlines, then
    "Context: ", then the context when the context is not empty, and the
    prompt alone when the context is empty. *)
Theorem adapter_payload_shaping (net : network) (prompt context : str)
    (w : process) (tr : list event) :
  let text :=
    match context with
    | [] => prompt
    | _ :: _ => prompt ++ [0x0A; 0x0A] ++ lit "Context: " ++ context
    end in
  (exists req,
      posts (trace (run net (_call_claude prompt context) w tr)) = posts tr ++ [req] /\
      sent_text req = inr (PStr text)) /\
  (exists req,
      posts (trace (run net (_call_openai prompt context) w tr)) = posts tr ++ [req] /\
      sent_text req = inr (PStr text)).
Proof.
  intros text. split.
  - exists (claude_request (ANTHROPIC_API_KEY w) prompt context).
    rewrite run_call_claude. cbn [trace]. rewrite posts_app. split; [reflexivity|].
    subst text. destruct context; reflexivity.
  - exists (openai_request (OPENAI_API_KEY w) prompt context).
    rewrite run_call_openai. cbn [trace]. rewrite posts_app. split; [reflexivity|].
    subst text. destruct context; reflexivity.
Qed.

(** C7. Provider selection. On a miss, and on a call without a hint,
    [call_ai] posts exactly one request: the Claude adapter's when
    [AI_PROVIDER] is "claude", the OpenAI adapter's for any other value. The
    two go to different endpoints, so never both and never neither. *)
Theorem call_ai_provider_selection (net : network) (prompt context : str)
    (cache_key : option str) (w : process) (tr : list event) :
  (opt_truthy cache_key = false \/
   exists id, opt_truthy cache_key = true /\
              cache_id_of (format_opt cache_key) prompt context = inr id /\
              _ai_cache w !! id = None) ->
  let o := run net (call_ai prompt context cache_key) w tr in
  exists req,
    posts (trace o) = posts tr ++ [req] /\
    (AI_PROVIDER w = lit "claude" ->
       req = claude_request (ANTHROPIC_API_KEY w) prompt context /\
       url req = lit "https://api.anthropic.com/v1/messages") /\
    (AI_PROVIDER w <> lit "claude" ->
       req = openai_request (OPENAI_API_KEY w) prompt context /\
       url req = lit "https://api.openai.com/v1/chat/completions").
Proof.
  intros Hcase o. exists (selected_request w prompt context). split.
  - subst o. destruct Hcase as [Hf | (id & Ht & Hid & Hmiss)].
    + rewrite (run_call_ai_no_hint net _ _ _ _ _ Hf). cbn [trace].
      rewrite posts_app. reflexivity.
    + destruct cache_key as [hint|]; [|discriminate]. cbn in Ht, Hid.
      rewrite (run_call_ai_miss net _ _ _ _ _ _ Ht Hid Hmiss). cbn zeta.
      destruct (adapter_result net w tr prompt context); cbn [trace];
        rewrite ?posts_app; cbn [posts app]; rewrite ?app_nil_r; reflexivity.
  - unfold selected_request, uses_claude, str_eqb. split; intros Hp.
    + rewrite bool_decide_true by exact Hp. split; reflexivity.
    + rewrite bool_decide_false by exact Hp. split; reflexivity.
Qed.

Lemma call_ai_provider_selection_witness :
  (opt_truthy (Some (lit "Message_sentiment_123")) = false \/
   exists id, opt_truthy (Some (lit "Message_sentiment_123")) = true /\
              cache_id_of (format_opt (Some (lit "Message_sentiment_123")))
                (lit "classify") (lit "I love this!") = inr id /\
              _ai_cache demo_process !! id = None) /\
  let o := run (net_claude_says (lit "positive"))
               (call_ai (lit "classify") (lit "I love this!")
                  (Some (lit "Message_sentiment_123"))) demo_process [] in
  exists req,
    posts (trace o) = posts [] ++ [req] /\
    (AI_PROVIDER demo_process = lit "claude" ->
       req = claude_request (ANTHROPIC_API_KEY demo_process) (lit "classify") (lit "I love this!") /\
       url req = lit "https://api.anthropic.com/v1/messages") /\
    (AI_PROVIDER demo_process <> lit "claude" ->
       req = openai_request (OPENAI_API_KEY demo_process) (lit "classify") (lit "I love this!") /\
       url req = lit "https://api.openai.com/v1/chat/completions").
Proof.
  assert (H : opt_truthy (Some (lit "Message_sentiment_123")) = false \/
   exists id, opt_truthy (Some (lit "Message_sentiment_123")) = true /\
              cache_id_of (format_opt (Some (lit "Message_sentiment_123")))
                (lit "classify") (lit "I love this!") = inr id /\
              _ai_cache demo_process !! id = None).
  { right. eexists. split; [reflexivity|]. split; [vm_compute; reflexivity | reflexivity]. }
  split; [exact H|].
  exact (call_ai_provider_selection (net_claude_says (lit "positive"))
           (lit "classify") (lit "I love this!") (Some (lit "Message_sentiment_123"))
           demo_process [] H).
Defined.

(** C4. Error propagation. With a present hint whose key is not cached,
    a failure of the selected adapter is the failure of [call_ai], the
    same exception, and the process, its cache included, is as before: no
    entry appears for the key. A response with a status outside 200..299 is
    such a failure. *)
Theorem call_ai_provider_error (net : network) (prompt context hint id : str)
    (w : process) (tr : list event) :
  str_truthy hint = true ->
  cache_id_of hint prompt context = inr id ->
  _ai_cache w !! id = None ->
  let o := run net (call_ai prompt context (Some hint)) w tr in
  (forall e,
      value (run net (selected_adapter w prompt context) w tr) = inl e ->
      value o = inl e /\ final o = w /\ _ai_cache (final o) !! id = None) /\
  (forall resp,
      net (posts tr) (selected_request w prompt context) = inr resp ->
      status_code resp < 200 \/ 299 < status_code resp ->
      value o = inl (HTTPStatusError (status_code resp)) /\
      final o = w /\ _ai_cache (final o) !! id = None).
Proof.
  intros Hk Hid Hmiss o.
  assert (Hgen : forall e, adapter_result net w tr prompt context = inl e ->
                           value o = inl e /\ final o = w /\ _ai_cache (final o) !! id = None).
  { intros e He. subst o. rewrite (run_call_ai_miss net _ _ _ _ _ _ Hk Hid Hmiss).
    cbn zeta. rewrite He. cbn [value final]. auto. }
  split.
  - intros e He. apply Hgen. rewrite run_selected_adapter in He. exact He.
  - intros resp Hresp Hstatus. apply Hgen.
    unfold adapter_result. rewrite Hresp. cbn [rbind].
    assert (Hr : raise_for_status resp = inl (HTTPStatusError (status_code resp))).
    { unfold raise_for_status.
      destruct (200 <=? status_code resp) eqn:H1;
        destruct (status_code resp <=? 299) eqn:H2; try reflexivity.
      apply Z.leb_le in H1. apply Z.leb_le in H2. lia. }
    unfold selected_extract, claude_extract, openai_extract.
    destruct (uses_claude w); rewrite Hr; reflexivity.
Qed.

Lemma call_ai_provider_error_witness :
  let hint := lit "Message_sentiment_123" in
  let prompt := lit "classify" in
  let context := lit "I love this!" in
  let id := lit "630f511b0749dc2ced42b6e74d75c44e" in
  let net := net_status 503 in
  let o := run net (call_ai prompt context (Some hint)) demo_process [] in
  (str_truthy hint = true /\
   cache_id_of hint prompt context = inr id /\
   _ai_cache demo_process !! id = None /\
   net (posts []) (selected_request demo_process prompt context) = inr (Response 503 None) /\
   (status_code (Response 503 None) < 200 \/ 299 < status_code (Response 503 None))) /\
  value o = inl (HTTPStatusError 503) /\
  final o = demo_process /\
  _ai_cache (final o) !! id = None.
Proof.
  intros hint prompt context id net o.
  assert (Hid : cache_id_of hint prompt context = inr id) by (vm_compute; reflexivity).
  assert (Hstatus : status_code (Response 503 None) < 200 \/ 299 < status_code (Response 503 None))
    by (right; reflexivity).
  split; [repeat split; solve [reflexivity | exact Hid | exact Hstatus]|].
  exact (proj2 (call_ai_provider_error net prompt context hint id demo_process []
                  eq_refl Hid eq_refl) (Response 503 None) eq_refl Hstatus).
Defined.

(** *** The cache *)

(** An invocation with a hint that returns a value leaves that value in the
    cache under the key of its triple: it found it there and posted
    nothing, or posted one request and stored the answer. *)
Lemma call_ai_success_cached (net : network) (prompt context hint : str)
    (w : process) (tr : list event) (r : pyval) :
  str_truthy hint = true ->
  let o := run net (call_ai prompt context (Some hint)) w tr in
  value o = inr r ->
  exists id,
    cache_id_of hint prompt context = inr id /\
    _ai_cache (final o) !! id = Some r /\
    ((_ai_cache w !! id = Some r /\ posts (trace o) = posts tr) \/
     (_ai_cache w !! id = None /\
      posts (trace o) = posts tr ++ [selected_request w prompt context])).
Proof.
  intros Hk o Hr. subst o.
  destruct (cache_id_of hint prompt context) as [e|id] eqn:Hid.
  { rewrite (run_call_ai_unencodable net _ _ _ _ _ _ Hk Hid) in Hr. discriminate. }
  exists id. split; [reflexivity|].
  destruct (_ai_cache w !! id) as [v|] eqn:Hv.
  - rewrite (run_call_ai_hit net _ _ _ _ _ _ _ Hk Hid Hv) in Hr |- *.
    cbn [value final trace] in *. injection Hr as <-.
    split; [exact Hv|]. left. split; [reflexivity|].
    rewrite posts_app. apply app_nil_r.
  - rewrite (run_call_ai_miss net _ _ _ _ _ _ Hk Hid Hv) in Hr |- *.
    cbn zeta in *.
    destruct (adapter_result net w tr prompt context) as [e|v];
      cbn [value final trace] in *; [discriminate|].
    injection Hr as <-. split; [apply lookup_insert_eq|].
    right. split; [reflexivity|].
    rewrite !posts_app. cbn [posts app]. rewrite app_nil_r. reflexivity.
Qed.

(** C1, amended. Cache idempotence. Take two invocations in a row with
    the same present hint, prompt and context. If the first returns a
    value, the second returns the same value and posts nothing. Together
    they post exactly one request when the key was not cached before the
    first, and none when it was. *)
Theorem call_ai_cache_idempotence (net : network) (prompt context hint : str)
    (w : process) (tr : list event) (r : pyval) :
  str_truthy hint = true ->
  let o1 := run net (call_ai prompt context (Some hint)) w tr in
  let o2 := run net (call_ai prompt context (Some hint)) (final o1) (trace o1) in
  value o1 = inr r ->
  value o2 = inr r /\
  posts (trace o2) = posts (trace o1) /\
  exists id,
    cache_id_of hint prompt context = inr id /\
    (_ai_cache w !! id = None -> exists req, posts (trace o2) = posts tr ++ [req]) /\
    (is_Some (_ai_cache w !! id) -> posts (trace o2) = posts tr).
Proof.
  intros Hk o1 o2 Hr.
  destruct (call_ai_success_cached net prompt context hint w tr r Hk Hr)
    as (id & Hid & Hcached & Hposts).
  fold o1 in Hcached, Hposts.
  assert (Ho2 : o2 = Outcome (final o1) (trace o1 ++ [ECacheContains id; ECacheGet id]) (inr r)).
  { subst o2. apply (run_call_ai_hit net _ _ _ _ _ _ _ Hk Hid Hcached). }
  assert (Hp2 : posts (trace o2) = posts (trace o1)).
  { rewrite Ho2. cbn [trace]. rewrite posts_app. apply app_nil_r. }
  split; [rewrite Ho2; reflexivity|]. split; [exact Hp2|].
  exists id. split; [exact Hid|]. rewrite Hp2. split.
  - intros Hnone. destruct Hposts as [[Hsome _] | [_ Hp]]; [congruence|].
    eauto.
  - intros [v Hv]. destruct Hposts as [[_ Hp] | [Hnone _]]; [exact Hp | congruence].
Qed.

Lemma call_ai_cache_idempotence_witness :
  let hint := lit "Message_sentiment_123" in
  let prompt := lit "classify" in
  let context := lit "I love this!" in
  let net := net_claude_says (lit "positive") in
  let o1 := run net (call_ai prompt context (Some hint)) demo_process [] in
  let o2 := run net (call_ai prompt context (Some hint)) (final o1) (trace o1) in
  (str_truthy hint = true /\ value o1 = inr (PStr (lit "positive"))) /\
  value o2 = inr (PStr (lit "positive")) /\
  posts (trace o2) = posts (trace o1) /\
  exists id,
    cache_id_of hint prompt context = inr id /\
    (_ai_cache demo_process !! id = None -> exists req, posts (trace o2) = posts [] ++ [req]) /\
    (is_Some (_ai_cache demo_process !! id) -> posts (trace o2) = posts []).
Proof.
  intros hint prompt context net o1 o2.
  assert (Hr : value o1 = inr (PStr (lit "positive"))) by (vm_compute; reflexivity).
  split; [split; [reflexivity | exact Hr]|].
  exact (call_ai_cache_idempotence net prompt context hint demo_process []
           (PStr (lit "positive")) eq_refl Hr).
Defined.

(** C1 as stated fails. From an empty cache, when the provider answers 503
    twice, nothing is cached and the two invocations post two requests.
    From a process in which the key is already cached, the two invocations
    post none. *)
Lemma call_ai_cache_idempotence_counterexample :
  ~ stated_cache_idempotence (net_status 503) demo_process
      (lit "classify") (lit "I love this!") (lit "Message_sentiment_123") /\
  ~ stated_cache_idempotence (net_claude_says (lit "positive")) warm_process
      (lit "classify") (lit "I love this!") (lit "Message_sentiment_123").
Proof.
  split; intros [Hcount _]; vm_compute in Hcount; discriminate.
Qed.

Example two_failures_two_posts :
  let net := net_status 503 in
  let call := call_ai (lit "classify") (lit "I love this!") (Some (lit "Message_sentiment_123")) in
  let o1 := run net call demo_process [] in
  let o2 := run net call (final o1) (trace o1) in
  value o1 = inl (HTTPStatusError 503) /\ value o2 = inl (HTTPStatusError 503) /\
  length (posts (trace o2)) = 2%nat /\ _ai_cache (final o2) = ∅.
Proof. vm_compute. repeat split. Qed.

Example warm_cache_no_posts :
  let net := net_claude_says (lit "positive") in
  let call := call_ai (lit "classify") (lit "I love this!") (Some (lit "Message_sentiment_123")) in
  let o1 := run net call warm_process [] in
  let o2 := run net call (final o1) (trace o1) in
  value o1 = inr (PStr (lit "positive")) /\ value o2 = inr (PStr (lit "positive")) /\
  posts (trace o2) = [].
Proof. vm_compute. repeat split. Qed.

(** C10. The cache key does not know the provider. Take an invocation
    with a present hint that returned a value, then change [AI_PROVIDER]
    to any value, and invoke again with the same hint, prompt and context:
    the second invocation looks up the very same key, posts nothing, and
    returns the value of the first. *)
Theorem call_ai_cache_ignores_provider (net : network) (prompt context hint : str)
    (w : process) (tr : list event) (r : pyval) (provider' : str) :
  str_truthy hint = true ->
  let o1 := run net (call_ai prompt context (Some hint)) w tr in
  let o2 := run net (call_ai prompt context (Some hint))
                (with_provider (final o1) provider') (trace o1) in
  value o1 = inr r ->
  value o2 = inr r /\
  posts (trace o2) = posts (trace o1) /\
  exists id,
    cache_id_of hint prompt context = inr id /\
    trace o2 = trace o1 ++ [ECacheContains id; ECacheGet id].
Proof.
  intros Hk o1 o2 Hr.
  destruct (call_ai_success_cached net prompt context hint w tr r Hk Hr)
    as (id & Hid & Hcached & _).
  fold o1 in Hcached.
  assert (Ho2 : o2 = Outcome (with_provider (final o1) provider')
                       (trace o1 ++ [ECacheContains id; ECacheGet id]) (inr r)).
  { subst o2. apply (run_call_ai_hit net _ _ _ _ _ _ _ Hk Hid). exact Hcached. }
  rewrite Ho2. cbn [value trace]. split; [reflexivity|]. split.
  - rewrite posts_app. apply app_nil_r.
  - exists id. split; [exact Hid | reflexivity].
Qed.

Lemma call_ai_cache_ignores_provider_witness :
  let hint := lit "Message_sentiment_123" in
  let prompt := lit "classify" in
  let context := lit "I love this!" in
  let net := net_claude_says (lit "positive") in
  let o1 := run net (call_ai prompt context (Some hint)) demo_process [] in
  let o2 := run net (call_ai prompt context (Some hint))
                (with_provider (final o1) (lit "openai")) (trace o1) in
  (str_truthy hint = true /\ value o1 = inr (PStr (lit "positive"))) /\
  value o2 = inr (PStr (lit "positive")) /\
  posts (trace o2) = posts (trace o1) /\
  exists id,
    cache_id_of hint prompt context = inr id /\
    trace o2 = trace o1 ++ [ECacheContains id; ECacheGet id].
Proof.
  intros hint prompt context net o1 o2.
  assert (Hr : value o1 = inr (PStr (lit "positive"))) by (vm_compute; reflexivity).
  split; [split; [reflexivity | exact Hr]|].
  exact (call_ai_cache_ignores_provider net prompt context hint demo_process []
           (PStr (lit "positive")) (lit "openai") eq_refl Hr).
Defined.

(** Whatever the hint, an invocation posts nothing or posts the selected
    adapter's request for its prompt and context, once. *)
Lemma call_ai_posts (net : network) (prompt context : str) (cache_key : option str)
    (w : process) (tr : list event) :
  let o := run net (call_ai prompt context cache_key) w tr in
  posts (trace o) = posts tr \/
  posts (trace o) = posts tr ++ [selected_request w prompt context].
Proof.
  intros o. subst o.
  destruct (opt_truthy cache_key) eqn:Hk.
  2:{ right. rewrite (run_call_ai_no_hint net _ _ _ _ _ Hk). cbn [trace].
      rewrite posts_app. reflexivity. }
  destruct cache_key as [hint|]; [|discriminate]. cbn in Hk.
  destruct (cache_id_of hint prompt context) as [e|id] eqn:Hid.
  { left. rewrite (run_call_ai_unencodable net _ _ _ _ _ _ Hk Hid). reflexivity. }
  destruct (_ai_cache w !! id) as [v|] eqn:Hv.
  - left. rewrite (run_call_ai_hit net _ _ _ _ _ _ _ Hk Hid Hv). cbn [trace].
    rewrite posts_app. apply app_nil_r.
  - right. rewrite (run_call_ai_miss net _ _ _ _ _ _ Hk Hid Hv). cbn zeta.
    destruct (adapter_result net w tr prompt context); cbn [trace];
      rewrite !posts_app; cbn [posts app]; rewrite ?app_nil_r; reflexivity.
Qed.

(** With a hint, the only cache key an invocation touches is the digest of
    its triple. *)
Lemma call_ai_cache_keys (net : network) (prompt context hint : str)
    (w : process) (tr : list event) :
  str_truthy hint = true ->
  let o := run net (call_ai prompt context (Some hint)) w tr in
  exists evs,
    trace o = tr ++ evs /\
    forall key, In key (cache_keys evs) -> cache_id_of hint prompt context = inr key.
Proof.
  intros Hk o. subst o.
  destruct (cache_id_of hint prompt context) as [e|id] eqn:Hid.
  { rewrite (run_call_ai_unencodable net _ _ _ _ _ _ Hk Hid). exists [].
    split; [symmetry; apply app_nil_r | intros key []]. }
  destruct (_ai_cache w !! id) as [v|] eqn:Hv.
  - rewrite (run_call_ai_hit net _ _ _ _ _ _ _ Hk Hid Hv). cbn [trace].
    eexists. split; [reflexivity|]. cbn. intros key [<- | [<- | []]]; reflexivity.
  - rewrite (run_call_ai_miss net _ _ _ _ _ _ Hk Hid Hv). cbn zeta.
    destruct (adapter_result net w tr prompt context); cbn [trace].
    + eexists. split; [reflexivity|]. cbn. intros key [<- | []]; reflexivity.
    + rewrite <- app_assoc. eexists. split; [reflexivity|]. cbn.
      intros key [<- | [<- | []]]; reflexivity.
Qed.

(* ===================================================================== *)
(** ** The rule helpers *)
(* ===================================================================== *)

Section RuleHelpers.

Variable unicode_lower : str -> str.

(** A rule helper hashes its argument into the hint, calls [call_ai] with
    its fixed prompt and no context, and compares the answer. *)
Lemma run_rule (net : network) (prompt prefix message_content : str) w tr :
  run net (h <- py_hash message_content ;;
           result <- call_ai prompt [] (Some (prefix ++ str_of_int h)) ;;
           is_true_text unicode_lower result) w tr =
  let hint := prefix ++ str_of_int (PyHash.hash (hash_secret w) message_content) in
  let o := run net (call_ai prompt [] (Some hint)) w (tr ++ [EHash message_content]) in
  Outcome (final o) (trace o)
    match value o with
    | inr (PStr s) => inr (str_eqb (lower unicode_lower (strip s)) (lit "true"))
    | inr _ => inl AttributeError
    | inl e => inl e
    end.
Proof.
  run_steps. cbn zeta.
  destruct (value (run net (call_ai prompt [] _) w _)) as [e|v]; [reflexivity|].
  destruct v; reflexivity.
Qed.

(** C8. Rule-helper boolean mapping. When the dispatcher hands a rule
    helper the text [r], the helper returns a boolean, and it is true
    exactly when [r], stripped of surrounding whitespace and lower-cased,
    is "true". With the provider answering " True " both helpers return
    true, with "maybe" both return false. *)
Theorem rule_helpers_boolean_mapping (net : network) (message_content r : str)
    (w : process) (tr : list event) :
  let h := str_of_int (PyHash.hash (hash_secret w) message_content) in
  let tr' := tr ++ [EHash message_content] in
  (value (run net (call_ai RULE_1_PROMPT [] (Some (lit "rule_1_" ++ h))) w tr') = inr (PStr r) ->
   exists b, value (run net (check_rule_1 unicode_lower message_content) w tr) = inr b /\
             (b = true <-> lower unicode_lower (strip r) = lit "true")) /\
  (value (run net (call_ai RULE_2_PROMPT [] (Some (lit "rule_2_" ++ h))) w tr') = inr (PStr r) ->
   exists b, value (run net (check_rule_2 unicode_lower message_content) w tr) = inr b /\
             (b = true <-> lower unicode_lower (strip r) = lit "true")) /\
  (let yes := net_claude_says (lit " True ") in
   let maybe := net_claude_says (lit "maybe") in
   let text := lit "This is the third time I ask!" in
   value (run yes (check_rule_1 unicode_lower text) demo_process []) = inr true /\
   value (run yes (check_rule_2 unicode_lower text) demo_process []) = inr true /\
   value (run maybe (check_rule_1 unicode_lower text) demo_process []) = inr false /\
   value (run maybe (check_rule_2 unicode_lower text) demo_process []) = inr false).
Proof.
  intros h tr'. split; [|split].
  - intros Hr. unfold check_rule_1. rewrite run_rule.
    cbn zeta. fold h tr'. rewrite Hr. cbn [value]. eexists. split; [reflexivity|].
    unfold str_eqb. apply bool_decide_eq_true.
  - intros Hr. unfold check_rule_2. rewrite run_rule.
    cbn zeta. fold h tr'. rewrite Hr. cbn [value]. eexists. split; [reflexivity|].
    unfold str_eqb. apply bool_decide_eq_true.
  - repeat split; vm_compute; reflexivity.
Qed.


End RuleHelpers.

Lemma rule_helpers_boolean_mapping_witness :
  let net := net_claude_says (lit " True ") in
  let text := lit "This is the third time I ask!" in
  let h := str_of_int (PyHash.hash (hash_secret demo_process) text) in
  value (run net (call_ai RULE_1_PROMPT [] (Some (lit "rule_1_" ++ h)))
           demo_process ([] ++ [EHash text])) = inr (PStr (lit " True ")) /\
  exists b,
    value (run net (check_rule_1 (fun s => s) text) demo_process []) = inr b /\
    (b = true <-> lower (fun s => s) (strip (lit " True ")) = lit "true").
Proof.
  intros net text h.
  assert (H : value (run net (call_ai RULE_1_PROMPT [] (Some (lit "rule_1_" ++ h)))
                       demo_process ([] ++ [EHash text])) = inr (PStr (lit " True ")))
    by (vm_compute; reflexivity).
  split; [exact H|].
  exact (proj1 (rule_helpers_boolean_mapping (fun s => s) net text (lit " True ")
                  demo_process []) H).
Defined.

(* ===================================================================== *)
(** ** The cache key *)
(* ===================================================================== *)

(** The key [call_ai] derives is the same in every process: whatever the
    configuration, the cache contents and the hash secret, the cache
    operations of an invocation with a hint all use the digest of its
    triple. *)
Lemma call_ai_key_same_in_every_process (net1 net2 : network)
    (prompt context hint : str) (w1 w2 : process) (tr1 tr2 : list event) :
  str_truthy hint = true ->
  exists evs1 evs2,
    trace (run net1 (call_ai prompt context (Some hint)) w1 tr1) = tr1 ++ evs1 /\
    trace (run net2 (call_ai prompt context (Some hint)) w2 tr2) = tr2 ++ evs2 /\
    forall k1 k2, In k1 (cache_keys evs1) -> In k2 (cache_keys evs2) -> k1 = k2.
Proof.
  intros Hk.
  destruct (call_ai_cache_keys net1 prompt context hint w1 tr1 Hk) as (evs1 & H1 & K1).
  destruct (call_ai_cache_keys net2 prompt context hint w2 tr2 Hk) as (evs2 & H2 & K2).
  exists evs1, evs2. split; [exact H1|]. split; [exact H2|].
  intros k1 k2 Hi1 Hi2. specialize (K1 k1 Hi1). specialize (K2 k2 Hi2). congruence.
Qed.

(** C5, the failing input. [compute_message_sentiment] on the data
    [{"body": "I love this!"}] in two processes that differ in their hash
    secret alone ([PYTHONHASHSEED] 1 and 2): the serialised context is the
    same, the hints the helper builds differ, and so do the cache keys the
    dispatcher derives from them. *)
Theorem field_cache_key_depends_on_hash_secret :
  let data := PDict [(lit "body", PStr (lit "I love this!"))] in
  let dumps := fun v : pyval => inr (Json.dumps v) : result str in
  let context := lit "{" ++ dquote ++ lit "body" ++ dquote ++ lit ": "
                 ++ dquote ++ lit "I love this!" ++ dquote ++ lit "}" in
  let w1 := with_secret demo_process (PyHash.secret_of_seed 1) in
  let w2 := with_secret demo_process (PyHash.secret_of_seed 2) in
  let net := net_claude_says (lit "positive") in
  let hint1 := lit "Message_sentiment_1938048764725255719" in
  let hint2 := lit "Message_sentiment_6649494306754390074" in
  let id1 := lit "2e25e1f52cef558461ff2bf9b337def0" in
  let id2 := lit "9dd2597e4d4153bf0bf1c081648a4d4c" in
  dumps data = inr context /\
  value (run net (field_cache_key (lit "Message_sentiment_") context) w1 []) = inr hint1 /\
  value (run net (field_cache_key (lit "Message_sentiment_") context) w2 []) = inr hint2 /\
  hint1 <> hint2 /\
  cache_keys (trace (run net (compute_message_sentiment pyval dumps data) w1 []))
    = [id1; id1] /\
  cache_keys (trace (run net (compute_message_sentiment pyval dumps data) w2 []))
    = [id2; id2] /\
  id1 <> id2.
Proof.
  cbv zeta. repeat split; try (vm_compute; reflexivity); vm_compute; discriminate.
Qed.

(** *** Contexts and keys *)

Lemma encode_ascii (s : str) : Forall (fun c => c < 0x80) s -> encode s = Some s.
Proof.
  induction 1 as [|c s Hc _ IH]; [reflexivity|].
  cbn [encode]. unfold utf8_char.
  rewrite (proj2 (Z.ltb_lt c 0x80) Hc), IH. reflexivity.
Qed.

Lemma binary_text_ascii (p : positive) : Forall (fun c => c < 0x80) (binary_text p).
Proof. induction p; cbn [binary_text]; constructor; (lia || assumption). Qed.

Lemma binary_text_inj (p q : positive) : binary_text p = binary_text q -> p = q.
Proof.
  revert q. induction p as [p IH|p IH|]; intros [q|q|]; cbn [binary_text];
    intros H; try discriminate; try reflexivity;
    injection H as H; f_equal; apply IH; exact H.
Qed.

Lemma add32_range (x y : Z) : 0 <= MD5.add32 x y < 2 ^ 32.
Proof. unfold MD5.add32, MD5.wrap32. apply Z.mod_pos_bound. reflexivity. Qed.

Lemma compress_in_range (st : MD5.state) (block : list Z) :
  state_in_range (MD5.compress st block).
Proof.
  unfold MD5.compress.
  destruct (fold_left _ MD5.rounds st) as [A B C D].
  repeat split; apply add32_range.
Qed.

Lemma fold_compress_in_range (bs : list (list Z)) :
  forall st, state_in_range st -> state_in_range (fold_left MD5.compress bs st).
Proof.
  induction bs as [|b bs IH]; intros st Hst; [exact Hst|].
  cbn [fold_left]. apply IH, compress_in_range.
Qed.

Lemma digest_state_in_range (msg : list Z) : state_in_range (MD5.digest_state msg).
Proof.
  unfold MD5.digest_state. apply fold_compress_in_range.
  unfold state_in_range, MD5.init; cbn. lia.
Qed.

Lemma state_value_range (st : MD5.state) :
  state_in_range st -> 0 <= state_value st < 2 ^ 128.
Proof. unfold state_in_range, state_value. lia. Qed.

Lemma state_value_inj (st1 st2 : MD5.state) :
  state_in_range st1 -> state_in_range st2 ->
  state_value st1 = state_value st2 -> st1 = st2.
Proof.
  destruct st1 as [a1 b1 c1 d1], st2 as [a2 b2 c2 d2].
  unfold state_in_range, state_value; cbn [MD5.sa MD5.sb MD5.sc MD5.sd].
  intros H1 H2 H. f_equal; lia.
Qed.

Lemma hexdigest_of_state (m1 m2 : list Z) :
  MD5.digest_state m1 = MD5.digest_state m2 -> MD5.hexdigest m1 = MD5.hexdigest m2.
Proof. unfold MD5.hexdigest, MD5.digest. intros ->. reflexivity. Qed.

(** *** UTF-8 is injective *)

(** A property checked on every number below [n] holds below [n]. *)
Lemma forall_below (P : Z -> bool) (n : nat) :
  forallb P (map Z.of_nat (seq 0 n)) = true ->
  forall z, 0 <= z < Z.of_nat n -> P z = true.
Proof.
  intros Hall z Hz. rewrite forallb_forall in Hall. apply Hall.
  apply in_map_iff. exists (Z.to_nat z). split; [lia|].
  apply in_seq. lia.
Qed.

(** On a lead or continuation byte the marker bits and the payload bits do
    not overlap, so [Z.lor] adds. *)
Lemma lor_marker (marker : Z) (n : nat) :
  forallb (fun q => Z.lor marker q =? marker + q) (map Z.of_nat (seq 0 n)) = true ->
  forall q, 0 <= q < Z.of_nat n -> Z.lor marker q = marker + q.
Proof.
  intros Hall q Hq. apply Z.eqb_eq.
  exact (forall_below (fun q => Z.lor marker q =? marker + q) n Hall q Hq).
Qed.

Lemma shiftr_6 c : Z.shiftr c 6 = c / 64.
Proof. apply (Z.shiftr_div_pow2 c 6). lia. Qed.

Lemma shiftr_12 c : Z.shiftr c 12 = c / 4096.
Proof. apply (Z.shiftr_div_pow2 c 12). lia. Qed.

Lemma shiftr_18 c : Z.shiftr c 18 = c / 262144.
Proof. apply (Z.shiftr_div_pow2 c 18). lia. Qed.

Lemma land_3F c : Z.land c 0x3F = c mod 64.
Proof. apply (Z.land_ones c 6). lia. Qed.

(** The bytes of a code point, in arithmetic. *)
Lemma utf8_char_spec (c : Z) (bs : list Z) :
  code_point c ->
  utf8_char c = Some bs ->
  (c < 0x80 /\ bs = [c]) \/
  (0x80 <= c < 0x800 /\ bs = [0xC0 + c / 64; 0x80 + c mod 64]) \/
  (0x800 <= c < 0x10000 /\
   bs = [0xE0 + c / 4096; 0x80 + (c / 64) mod 64; 0x80 + c mod 64]) \/
  (0x10000 <= c /\
   bs = [0xF0 + c / 262144; 0x80 + (c / 4096) mod 64; 0x80 + (c / 64) mod 64;
         0x80 + c mod 64]).
Proof.
  intros [Hlo Hhi] H. unfold utf8_char in H.
  rewrite ?shiftr_6, ?shiftr_12, ?shiftr_18, ?land_3F in H.
  assert (Hcont : forall r, 0 <= r < 64 -> Z.lor 0x80 r = 0x80 + r)
    by (apply (lor_marker 0x80 64); vm_compute; reflexivity).
  assert (Hm : forall x, 0 <= x mod 64 < 64) by (intros x; apply Z.mod_pos_bound; lia).
  rewrite !Hcont in H by apply Hm.
  destruct (c <? 0x80) eqn:H1; [left; apply Z.ltb_lt in H1; split; [lia | congruence]|].
  apply Z.ltb_ge in H1. right.
  destruct (c <? 0x800) eqn:H2.
  { apply Z.ltb_lt in H2. left. split; [lia|].
    rewrite (lor_marker 0xC0 32) in H;
      [congruence | vm_compute; reflexivity | ].
    split; [apply Z.div_pos; lia | apply Z.div_lt_upper_bound; lia]. }
  apply Z.ltb_ge in H2. right.
  destruct (is_surrogate c); [discriminate|].
  destruct (c <? 0x10000) eqn:H3.
  { apply Z.ltb_lt in H3. left. split; [lia|].
    rewrite (lor_marker 0xE0 16) in H;
      [congruence | vm_compute; reflexivity | ].
    split; [apply Z.div_pos; lia | apply Z.div_lt_upper_bound; lia]. }
  apply Z.ltb_ge in H3. right. split; [lia|].
  rewrite (lor_marker 0xF0 8) in H;
    [congruence | vm_compute; reflexivity | ].
  split; [apply Z.div_pos; lia | apply Z.div_lt_upper_bound; lia].
Qed.

(** UTF-8 is a prefix code: from the bytes of a code point followed by
    anything, the code point and the rest can be read back. *)
Lemma utf8_char_prefix (c1 c2 : Z) (bs1 bs2 rest1 rest2 : list Z) :
  code_point c1 -> code_point c2 ->
  utf8_char c1 = Some bs1 -> utf8_char c2 = Some bs2 ->
  bs1 ++ rest1 = bs2 ++ rest2 ->
  c1 = c2 /\ rest1 = rest2.
Proof.
  intros Hc1 Hc2 H1 H2 Happ.
  pose proof Hc1 as [? ?]. pose proof Hc2 as [? ?].
  apply utf8_char_spec in H1; [|exact Hc1]. apply utf8_char_spec in H2; [|exact Hc2].
  destruct H1 as [[? ->] | [[? ->] | [[? ->] | [? ->]]]];
    destruct H2 as [[? ->] | [[? ->] | [[? ->] | [? ->]]]];
    cbn [app] in Happ; injection Happ as ?;
    try (split; [Z.div_mod_to_equations; lia | repeat (subst; try congruence)]);
    exfalso; Z.div_mod_to_equations; lia.
Qed.

Lemma encode_inj (s1 : str) :
  forall (s2 : str) (bytes : list Z),
    well_formed s1 -> well_formed s2 ->
    encode s1 = Some bytes -> encode s2 = Some bytes -> s1 = s2.
Proof.
  induction s1 as [|c1 s1 IH]; intros [|c2 s2] bytes W1 W2 H1 H2; try reflexivity.
  - cbn [encode] in H1, H2. injection H1 as <-.
    destruct (utf8_char c2) as [bs|] eqn:Hc; [|discriminate].
    destruct (encode s2); [|discriminate]. injection H2 as H2.
    apply utf8_char_spec in Hc; [|inversion W2; assumption].
    destruct Hc as [[? ->] | [[? ->] | [[? ->] | [? ->]]]]; discriminate.
  - cbn [encode] in H1, H2. injection H2 as <-.
    destruct (utf8_char c1) as [bs|] eqn:Hc; [|discriminate].
    destruct (encode s1); [|discriminate]. injection H1 as H1.
    apply utf8_char_spec in Hc; [|inversion W1; assumption].
    destruct Hc as [[? ->] | [[? ->] | [[? ->] | [? ->]]]]; discriminate.
  - cbn [encode] in H1, H2.
    destruct (utf8_char c1) as [bs1|] eqn:Hc1; [|discriminate].
    destruct (encode s1) as [r1|] eqn:He1; [|discriminate].
    destruct (utf8_char c2) as [bs2|] eqn:Hc2; [|discriminate].
    destruct (encode s2) as [r2|] eqn:He2; [|discriminate].
    injection H1 as <-. injection H2 as H2.
    inversion W1 as [|? ? Hv1 W1']; subst. inversion W2 as [|? ? Hv2 W2']; subst.
    destruct (utf8_char_prefix c1 c2 bs1 bs2 r1 r2 Hv1 Hv2 Hc1 Hc2) as [-> ->];
      [symmetry; exact H2|].
    f_equal. apply (IH s2 r2 W1' W2' eq_refl He2).
Qed.

Lemma numbered_message_id (i : nat) :
  cache_id_of (lit "h") (lit "p") (binary_text (Pos.of_succ_nat i)) =
  inr (MD5.hexdigest (numbered_message i)).
Proof.
  unfold cache_id_of. fold (numbered_message i).
  rewrite encode_ascii; [reflexivity|].
  unfold numbered_message, cache_message.
  repeat (apply Forall_app; split); try apply binary_text_ascii;
    repeat constructor.
Qed.

(** More messages than digests: two of the first [2 ^ 128 + 1] numbered
    messages have the same chaining value. *)
Lemma numbered_messages_collide :
  exists i j, (i < j)%nat /\
    MD5.digest_state (numbered_message i) = MD5.digest_state (numbered_message j).
Proof.
  pose (f := fun i : nat => Z.to_nat (state_value (MD5.digest_state (numbered_message i)))).
  destruct (nat_pigeonhole f (S digest_count) digest_count) as (i & j & Hij & Hf).
  - apply Nat.lt_succ_diag_r.
  - intros i _. unfold f, digest_count.
    pose proof (state_value_range _ (digest_state_in_range (numbered_message i))) as Hr.
    apply Z2Nat.inj_lt; lia.
  - exists i, j. split; [lia|].
    apply state_value_inj; try apply digest_state_in_range.
    pose proof (state_value_range _ (digest_state_in_range (numbered_message i))).
    pose proof (state_value_range _ (digest_state_in_range (numbered_message j))).
    apply Z2Nat.inj; [lia | lia | exact Hf].
Qed.

(** C6 as stated fails: the keys are 128-bit digests, so among the
    contexts [binary_text 1], ..., [binary_text (2 ^ 128 + 1)] under one hint
    and one prompt, two distinct ones share a key. *)
Lemma cache_key_context_aliasing_counterexample : ~ stated_context_never_aliased.
Proof.
  intros Hnever.
  destruct numbered_messages_collide as (i & j & Hij & Hst).
  apply (Hnever (lit "h") (lit "p")
           (binary_text (Pos.of_succ_nat i)) (binary_text (Pos.of_succ_nat j))
           (MD5.hexdigest (numbered_message i)) (MD5.hexdigest (numbered_message j))).
  - reflexivity.
  - intros Heq. apply binary_text_inj, SuccNat2Pos.inj in Heq. lia.
  - apply numbered_message_id.
  - apply numbered_message_id.
  - apply hexdigest_of_state, Hst.
Qed.

Lemma cache_message_inj (hint prompt context1 context2 : str) :
  cache_message hint prompt context1 = cache_message hint prompt context2 ->
  context1 = context2.
Proof.
  unfold cache_message. intros H. repeat apply app_inv_head in H. exact H.
Qed.

Lemma cache_message_well_formed (hint prompt context : str) :
  well_formed hint -> well_formed prompt -> well_formed context ->
  well_formed (cache_message hint prompt context).
Proof.
  intros Hh Hp Hc. unfold cache_message, well_formed.
  repeat (apply Forall_app; split); try assumption;
    repeat constructor; unfold code_point; cbn; lia.
Qed.

(** C6, amended. The key combines the three inputs. The digested message
    holds the whole context after the hint and the prompt: two requests
    that share hint and prompt and differ in context are digested from
    different byte strings, and each key is the MD5 digest of its byte
    string, so the two share a key only when MD5 gives both byte strings
    one digest. Changing any one of hint, prompt and context can change
    the key, as it does between "a" and "b". *)
Theorem cache_key_combines_inputs (hint prompt context1 context2 : str)
    (bytes1 bytes2 : list Z) :
  well_formed hint -> well_formed prompt ->
  well_formed context1 -> well_formed context2 ->
  context1 <> context2 ->
  encode (cache_message hint prompt context1) = Some bytes1 ->
  encode (cache_message hint prompt context2) = Some bytes2 ->
  (bytes1 <> bytes2 /\
   cache_id_of hint prompt context1 = inr (MD5.hexdigest bytes1) /\
   cache_id_of hint prompt context2 = inr (MD5.hexdigest bytes2)) /\
  (cache_id_of (lit "h") (lit "p") (lit "a") <> cache_id_of (lit "h") (lit "p") (lit "b") /\
   cache_id_of (lit "h") (lit "a") (lit "c") <> cache_id_of (lit "h") (lit "b") (lit "c") /\
   cache_id_of (lit "a") (lit "p") (lit "c") <> cache_id_of (lit "b") (lit "p") (lit "c")).
Proof.
  intros Wh Wp W1 W2 Hne H1 H2. split; [split; [|split]|].
  - intros ->. apply Hne.
    apply (cache_message_inj hint prompt).
    apply (encode_inj _ _ bytes2); try assumption;
      apply cache_message_well_formed; assumption.
  - unfold cache_id_of. rewrite H1. reflexivity.
  - unfold cache_id_of. rewrite H2. reflexivity.
  - repeat split; vm_compute; discriminate.
Qed.

Lemma cache_key_combines_inputs_witness :
  let hint := lit "h" in
  let prompt := lit "p" in
  let bytes1 := [0x68; 0x3A; 0x70; 0x3A; 0x61] in
  let bytes2 := [0x68; 0x3A; 0x70; 0x3A; 0x62] in
  (well_formed hint /\ well_formed prompt /\
   well_formed (lit "a") /\ well_formed (lit "b") /\
   lit "a" <> lit "b" /\
   encode (cache_message hint prompt (lit "a")) = Some bytes1 /\
   encode (cache_message hint prompt (lit "b")) = Some bytes2) /\
  bytes1 <> bytes2 /\
  cache_id_of hint prompt (lit "a") = inr (MD5.hexdigest bytes1) /\
  cache_id_of hint prompt (lit "b") = inr (MD5.hexdigest bytes2).
Proof.
  intros hint prompt bytes1 bytes2.
  assert (Wh : well_formed hint) by (repeat constructor; unfold code_point; cbn; lia).
  assert (Wp : well_formed prompt) by (repeat constructor; unfold code_point; cbn; lia).
  assert (Wa : well_formed (lit "a")) by (repeat constructor; unfold code_point; cbn; lia).
  assert (Wb : well_formed (lit "b")) by (repeat constructor; unfold code_point; cbn; lia).
  assert (Hne : lit "a" <> lit "b") by (vm_compute; discriminate).
  assert (H1 : encode (cache_message hint prompt (lit "a")) = Some bytes1) by reflexivity.
  assert (H2 : encode (cache_message hint prompt (lit "b")) = Some bytes2) by reflexivity.
  split; [repeat split; assumption|].
  exact (proj1 (cache_key_combines_inputs hint prompt (lit "a") (lit "b") bytes1 bytes2
                  Wh Wp Wa Wb Hne H1 H2)).
Defined.

(* ===================================================================== *)
(** ** Further properties of the dispatcher *)
(* ===================================================================== *)

(** *** The shape of a key *)

Lemma le_bytes_spec (n : nat) :
  forall x, length (MD5.le_bytes n x) = n /\
            Forall (fun b => 0 <= b < 256) (MD5.le_bytes n x).
Proof.
  induction n as [|n IH]; intros x; cbn [MD5.le_bytes].
  - split; [reflexivity | constructor].
  - destruct (IH (Z.shiftr x 8)) as [Hlen Hall]. split; [cbn; lia|].
    constructor; [|exact Hall].
    change 0xFF with (Z.ones 8). rewrite Z.land_ones by lia.
    apply Z.mod_pos_bound. lia.
Qed.

Lemma digest_spec (msg : list Z) :
  length (MD5.digest msg) = 16%nat /\ Forall (fun b => 0 <= b < 256) (MD5.digest msg).
Proof.
  unfold MD5.digest. destruct (MD5.digest_state msg) as [A B C D].
  destruct (le_bytes_spec 4 A) as [LA FA], (le_bytes_spec 4 B) as [LB FB],
    (le_bytes_spec 4 C) as [LC FC], (le_bytes_spec 4 D) as [LD FD].
  split.
  - rewrite !length_app, LA, LB, LC, LD. reflexivity.
  - repeat (apply Forall_app; split); assumption.
Qed.

Lemma hex_of_byte (b : Z) :
  0 <= b < 256 ->
  hex_char (MD5.hex_digit (Z.shiftr b 4)) /\ hex_char (MD5.hex_digit (Z.land b 0xF)).
Proof.
  intros Hb.
  assert (H : hex_charb (MD5.hex_digit (Z.shiftr b 4))
              && hex_charb (MD5.hex_digit (Z.land b 0xF)) = true).
  { apply (forall_below
             (fun b => hex_charb (MD5.hex_digit (Z.shiftr b 4))
                       && hex_charb (MD5.hex_digit (Z.land b 0xF))) 256);
      [vm_compute; reflexivity | lia]. }
  apply andb_true_iff in H. unfold hex_charb, hex_char in *.
  destruct H as [H1 H2]. split; [clear H2 | clear H1]; lia.
Qed.

(** X1. A cache key is always 32 lower-case hexadecimal characters,
    whatever the lengths of hint, prompt and context. *)
Theorem cache_id_is_32_hex (hint prompt context id : str) :
  cache_id_of hint prompt context = inr id ->
  length id = 32%nat /\ Forall hex_char id.
Proof.
  unfold cache_id_of. destruct (encode _) as [bytes|]; [|discriminate].
  intros H. injection H as <-. unfold MD5.hexdigest.
  destruct (digest_spec bytes) as [Hlen Hall]. revert Hlen Hall.
  generalize (MD5.digest bytes) as ds. intros ds Hlen Hall.
  assert (Hgen : length (flat_map (fun b => [MD5.hex_digit (Z.shiftr b 4);
                                             MD5.hex_digit (Z.land b 0xF)]) ds)
                 = (2 * length ds)%nat /\
                 Forall hex_char (flat_map (fun b => [MD5.hex_digit (Z.shiftr b 4);
                                                     MD5.hex_digit (Z.land b 0xF)]) ds)).
  { clear Hlen. induction Hall as [|b ds Hb _ [IHl IHf]]; [split; [reflexivity | constructor]|].
    cbn [flat_map app length]. split; [lia|].
    destruct (hex_of_byte b Hb) as [Hh Hl].
    constructor; [exact Hh|]. constructor; [exact Hl | exact IHf]. }
  destruct Hgen as [Hl Hf]. split; [lia | exact Hf].
Qed.

Lemma cache_id_is_32_hex_witness :
  cache_id_of (lit "Message_sentiment_123") (lit "classify") (lit "I love this!")
    = inr (lit "630f511b0749dc2ced42b6e74d75c44e") /\
  length (lit "630f511b0749dc2ced42b6e74d75c44e") = 32%nat /\
  Forall hex_char (lit "630f511b0749dc2ced42b6e74d75c44e").
Proof.
  assert (H : cache_id_of (lit "Message_sentiment_123") (lit "classify") (lit "I love this!")
              = inr (lit "630f511b0749dc2ced42b6e74d75c44e")) by (vm_compute; reflexivity).
  split; [exact H|].
  exact (cache_id_is_32_hex _ _ _ _ H).
Defined.

(** *** Text that cannot be encoded *)

Lemma utf8_char_none (c : Z) : utf8_char c = None <-> is_surrogate c = true.
Proof.
  unfold utf8_char, is_surrogate.
  destruct (c <? 0x80) eqn:H1; [split; [discriminate | lia]|].
  destruct (c <? 0x800) eqn:H2; [split; [discriminate | lia]|].
  destruct ((0xD800 <=? c) && (c <=? 0xDFFF)); [split; reflexivity|].
  destruct (c <? 0x10000); split; discriminate.
Qed.

Lemma encode_none (s : str) :
  encode s = None <-> Exists (fun c => is_surrogate c = true) s.
Proof.
  induction s as [|c s IH]; cbn [encode].
  - split; [discriminate | intros H; inversion H].
  - destruct (utf8_char c) as [bs|] eqn:Hc.
    + assert (Hns : is_surrogate c <> true)
        by (intros Hs; apply utf8_char_none in Hs; congruence).
      destruct (encode s) as [rest|].
      * split; [discriminate|]. intros H. exfalso.
        inversion H; subst; [contradiction|].
        assert (Some rest = None) by (apply IH; assumption). discriminate.
      * split; [intros _; right; apply IH; reflexivity | reflexivity].
    + split; [intros _; left; apply utf8_char_none; exact Hc | reflexivity].
Qed.

(** X2. With a present hint, [call_ai] does nothing at all exactly when
    hint, prompt or context holds a lone surrogate: it then raises
    [UnicodeEncodeError] before touching the cache or the network.
    Otherwise it derives a key and starts with the membership test. *)
Theorem call_ai_lone_surrogate (net : network) (prompt context hint : str)
    (w : process) (tr : list event) :
  str_truthy hint = true ->
  let o := run net (call_ai prompt context (Some hint)) w tr in
  (Exists (fun c => is_surrogate c = true) (cache_message hint prompt context) ->
   value o = inl UnicodeEncodeError /\ trace o = tr /\ final o = w) /\
  (~ Exists (fun c => is_surrogate c = true) (cache_message hint prompt context) ->
   exists id evs, cache_id_of hint prompt context = inr id /\
                  trace o = tr ++ ECacheContains id :: evs).
Proof.
  intros Hk o. split.
  - intros Hs. apply encode_none in Hs.
    assert (Hid : cache_id_of hint prompt context = inl UnicodeEncodeError)
      by (unfold cache_id_of; rewrite Hs; reflexivity).
    subst o. rewrite (run_call_ai_unencodable net _ _ _ _ _ _ Hk Hid). auto.
  - intros Hs. destruct (cache_id_of hint prompt context) as [e|id] eqn:Hid.
    { exfalso. apply Hs, encode_none. unfold cache_id_of in Hid.
      destruct (encode _); [discriminate | reflexivity]. }
    exists id. subst o. destruct (_ai_cache w !! id) as [v|] eqn:Hv.
    + rewrite (run_call_ai_hit net _ _ _ _ _ _ _ Hk Hid Hv). cbn [trace]. eauto.
    + rewrite (run_call_ai_miss net _ _ _ _ _ _ Hk Hid Hv). cbn zeta.
      destruct (adapter_result net w tr prompt context); cbn [trace];
        rewrite <- ?app_assoc; cbn [app]; eauto.
Qed.

Lemma call_ai_lone_surrogate_witness :
  let o := run (net_claude_says (lit "positive"))
               (call_ai [0x68; 0xD800] [] (Some (lit "k"))) demo_process [] in
  str_truthy (lit "k") = true /\
  Exists (fun c => is_surrogate c = true) (cache_message (lit "k") [0x68; 0xD800] []) /\
  value o = inl UnicodeEncodeError /\ trace o = [] /\ final o = demo_process.
Proof.
  intros o.
  assert (Hs : Exists (fun c => is_surrogate c = true)
                 (cache_message (lit "k") [0x68; 0xD800] []))
    by (apply encode_none; reflexivity).
  split; [reflexivity|]. split; [exact Hs|].
  exact (proj1 (call_ai_lone_surrogate (net_claude_says (lit "positive"))
                  [0x68; 0xD800] [] (lit "k") demo_process [] eq_refl) Hs).
Defined.

(** *** The separator *)

(** X3. The key does not record where the hint ends and the prompt
    begins: moving a piece across the ":" gives the same key. So when a
    request with hint "a:b" and prompt "c" has returned a value, a request
    with hint "a" and the different prompt "b:c" (same context) is
    answered from the cache with that value, and nothing is posted. *)
Theorem call_ai_separator_aliasing (net : network) (a b c context : str)
    (w : process) (tr : list event) (v : pyval) :
  str_truthy a = true ->
  let o1 := run net (call_ai c context (Some (a ++ lit ":" ++ b))) w tr in
  let o2 := run net (call_ai (b ++ lit ":" ++ c) context (Some a)) (final o1) (trace o1) in
  value o1 = inr v ->
  cache_id_of (a ++ lit ":" ++ b) c context = cache_id_of a (b ++ lit ":" ++ c) context /\
  value o2 = inr v /\
  posts (trace o2) = posts (trace o1).
Proof.
  intros Ha o1 o2 Hv.
  assert (Hab : str_truthy (a ++ lit ":" ++ b) = true)
    by (destruct a; [discriminate | reflexivity]).
  assert (Hkey : cache_id_of (a ++ lit ":" ++ b) c context
                 = cache_id_of a (b ++ lit ":" ++ c) context).
  { unfold cache_id_of, cache_message. rewrite <- !app_assoc. reflexivity. }
  split; [exact Hkey|].
  destruct (call_ai_success_cached net c context (a ++ lit ":" ++ b) w tr v Hab Hv)
    as (id & Hid & Hcached & _).
  fold o1 in Hcached. rewrite Hkey in Hid.
  subst o2. rewrite (run_call_ai_hit net _ _ _ _ _ _ _ Ha Hid Hcached).
  cbn [value trace]. split; [reflexivity|].
  rewrite posts_app. apply app_nil_r.
Qed.

Lemma call_ai_separator_aliasing_witness :
  let net := net_claude_says (lit "positive") in
  let o1 := run net (call_ai (lit "is it spam?") (lit "hello")
                       (Some (lit "rule" ++ lit ":" ++ lit "is it angry?"))) demo_process [] in
  let o2 := run net (call_ai (lit "is it angry?" ++ lit ":" ++ lit "is it spam?") (lit "hello")
                       (Some (lit "rule"))) (final o1) (trace o1) in
  (str_truthy (lit "rule") = true /\ value o1 = inr (PStr (lit "positive"))) /\
  value o2 = inr (PStr (lit "positive")) /\
  posts (trace o2) = posts (trace o1).
Proof.
  intros net o1 o2.
  assert (Hv : value o1 = inr (PStr (lit "positive"))) by (vm_compute; reflexivity).
  split; [split; [reflexivity | exact Hv]|].
  exact (proj2 (call_ai_separator_aliasing net (lit "rule") (lit "is it angry?")
                  (lit "is it spam?") (lit "hello") demo_process []
                  (PStr (lit "positive")) eq_refl Hv)).
Defined.

(* ===================================================================== *)
(** ** Further properties of the adapters *)
(* ===================================================================== *)






(* ===================================================================== *)
(** ** Further properties of the cache *)
(* ===================================================================== *)

Lemma with_cache_same (w : process) : with_cache w (_ai_cache w) = w.
Proof. destruct w; reflexivity. Qed.

(** The process after [call_ai]: as before, or with the returned value
    stored under the key of the triple, which was not cached. *)
Lemma call_ai_final (net : network) (prompt context : str) (cache_key : option str)
    (w : process) (tr : list event) :
  let o := run net (call_ai prompt context cache_key) w tr in
  final o = w \/
  exists id v,
    opt_truthy cache_key = true /\
    cache_id_of (format_opt cache_key) prompt context = inr id /\
    _ai_cache w !! id = None /\
    value o = inr v /\
    final o = with_cache w (<[id:=v]> (_ai_cache w)).
Proof.
  intros o. subst o.
  destruct (opt_truthy cache_key) eqn:Hk.
  2:{ left. rewrite (run_call_ai_no_hint net _ _ _ _ _ Hk). reflexivity. }
  destruct cache_key as [hint|]; [|discriminate]. cbn in Hk. cbn [format_opt].
  destruct (cache_id_of hint prompt context) as [e|id] eqn:Hid.
  { left. rewrite (run_call_ai_unencodable net _ _ _ _ _ _ Hk Hid). reflexivity. }
  destruct (_ai_cache w !! id) as [v|] eqn:Hv.
  - left. rewrite (run_call_ai_hit net _ _ _ _ _ _ _ Hk Hid Hv). reflexivity.
  - rewrite (run_call_ai_miss net _ _ _ _ _ _ Hk Hid Hv). cbn zeta.
    destruct (adapter_result net w tr prompt context) as [e|v]; [left; reflexivity|].
    right. exists id, v. cbn [final value]. auto.
Qed.

(** X7. [call_ai] changes the process in one way only: on a miss that
    the provider answers, it adds the returned value under the key of the
    triple. The configuration and the hash secret stay, every entry that
    was in the cache stays with its value (nothing is evicted or
    overwritten), and no other key appears. *)
Theorem call_ai_cache_frame (net : network) (prompt context : str)
    (cache_key : option str) (w : process) (tr : list event) :
  let o := run net (call_ai prompt context cache_key) w tr in
  AI_PROVIDER (final o) = AI_PROVIDER w /\
  ANTHROPIC_API_KEY (final o) = ANTHROPIC_API_KEY w /\
  OPENAI_API_KEY (final o) = OPENAI_API_KEY w /\
  hash_secret (final o) = hash_secret w /\
  _ai_cache w ⊆ _ai_cache (final o) /\
  (_ai_cache (final o) = _ai_cache w \/
   exists id v,
     cache_id_of (format_opt cache_key) prompt context = inr id /\
     _ai_cache w !! id = None /\
     value o = inr v /\
     _ai_cache (final o) = <[id:=v]> (_ai_cache w)).
Proof.
  intros o. destruct (call_ai_final net prompt context cache_key w tr)
    as [Hf | (id & v & _ & Hid & Hnone & Hv & Hf)]; fold o in Hf |- *; rewrite Hf.
  - repeat split; try reflexivity. left. reflexivity.
  - cbn [with_cache AI_PROVIDER ANTHROPIC_API_KEY OPENAI_API_KEY hash_secret _ai_cache].
    repeat split; try reflexivity.
    + apply insert_subseteq. exact Hnone.
    + right. exists id, v. fold o in Hv. auto.
Qed.

(** X8. A hit needs nothing but the cache. When the key of the triple is
    cached, [call_ai] returns the stored value with two cache operations
    and nothing else: it reads no configuration, posts nothing (so the
    network may be down and no credential set), and leaves the process as
    it is. *)
Theorem call_ai_hit_is_local (net : network) (prompt context hint id : str)
    (v : pyval) (w : process) (tr : list event) :
  str_truthy hint = true ->
  cache_id_of hint prompt context = inr id ->
  _ai_cache w !! id = Some v ->
  let o := run net (call_ai prompt context (Some hint)) w tr in
  value o = inr v /\
  final o = w /\
  posts (trace o) = posts tr /\
  exists evs, trace o = tr ++ evs /\ Forall (fun e => is_cache_event e = true) evs.
Proof.
  intros Hk Hid Hv o. subst o.
  rewrite (run_call_ai_hit net _ _ _ _ _ _ _ Hk Hid Hv). cbn [value final trace].
  repeat split.
  - rewrite posts_app. apply app_nil_r.
  - eexists. split; [reflexivity|]. repeat constructor.
Qed.

Lemma call_ai_hit_is_local_witness :
  let hint := lit "Message_sentiment_123" in
  let prompt := lit "classify" in
  let context := lit "I love this!" in
  let id := lit "630f511b0749dc2ced42b6e74d75c44e" in
  let down : network := fun _ _ => inl (TransportError (lit "connection refused")) in
  let o := run down (call_ai prompt context (Some hint)) warm_process [] in
  (str_truthy hint = true /\
   cache_id_of hint prompt context = inr id /\
   _ai_cache warm_process !! id = Some (PStr (lit "positive"))) /\
  value o = inr (PStr (lit "positive")) /\
  final o = warm_process /\
  posts (trace o) = posts [] /\
  exists evs, trace o = [] ++ evs /\ Forall (fun e => is_cache_event e = true) evs.
Proof.
  intros hint prompt context id down o.
  assert (Hid : cache_id_of hint prompt context = inr id) by (vm_compute; reflexivity).
  assert (Hv : _ai_cache warm_process !! id = Some (PStr (lit "positive")))
    by (vm_compute; reflexivity).
  split; [repeat split; assumption|].
  exact (call_ai_hit_is_local down prompt context hint id (PStr (lit "positive"))
           warm_process [] eq_refl Hid Hv).
Defined.

(* ===================================================================== *)
(** ** Further properties of the helpers *)
(* ===================================================================== *)

Lemma frugal_call_ai (prompt context : str) (cache_key : option str) :
  frugal (call_ai prompt context cache_key).
Proof.
  intros net w tr o. split; [|split].
  - destruct (call_ai_final net prompt context cache_key w tr)
      as [Hf | (id & v & _ & _ & Hnone & _ & Hf)]; fold o in Hf; rewrite Hf.
    + reflexivity.
    + apply insert_subseteq. exact Hnone.
  - destruct (call_ai_final net prompt context cache_key w tr)
      as [Hf | (id & v & _ & _ & _ & _ & Hf)]; fold o in Hf; rewrite Hf.
    + apply with_cache_same.
    + destruct w; reflexivity.
  - destruct (call_ai_posts net prompt context cache_key w tr) as [H | H];
      fold o in H; rewrite H; eauto.
Qed.

(** A step that cannot post and leaves the process alone may come first. *)
Lemma frugal_after {A B : Type} (p : prog A) (f : A -> prog B) :
  (forall net w tr, final (run net p w tr) = w /\
                    posts (trace (run net p w tr)) = posts tr) ->
  (forall a, frugal (f a)) ->
  frugal (bind p f).
Proof.
  intros Hp Hf net w tr o. subst o. rewrite run_bind.
  destruct (Hp net w tr) as [Hfin Hposts].
  destruct (value (run net p w tr)) as [e|a].
  - cbn [final trace]. rewrite Hfin, Hposts. split; [reflexivity|].
    split; [apply with_cache_same | left; reflexivity].
  - rewrite Hfin. pose proof (Hf a net w (trace (run net p w tr))) as H.
    cbn zeta in H. rewrite Hposts in H. exact H.
Qed.

Lemma frugal_map {A B : Type} (p : prog A) (f : A -> prog B) :
  frugal p ->
  (forall a net w tr, final (run net (f a) w tr) = w /\
                      trace (run net (f a) w tr) = tr) ->
  frugal (bind p f).
Proof.
  intros Hp Hf net w tr o. subst o. rewrite run_bind.
  pose proof (Hp net w tr) as H. cbn zeta in H.
  destruct (value (run net p w tr)) as [e|a]; cbn [final trace]; [exact H|].
  destruct (Hf a net (final (run net p w tr)) (trace (run net p w tr))) as [-> ->].
  exact H.
Qed.

Lemma quiet_lift {A : Type} (r : result A) net w tr :
  final (run net (lift r) w tr) = w /\ posts (trace (run net (lift r) w tr)) = posts tr.
Proof. rewrite run_lift. auto. Qed.

Lemma quiet_py_hash (s : str) net w tr :
  final (run net (py_hash s) w tr) = w /\
  posts (trace (run net (py_hash s) w tr)) = posts tr.
Proof. rewrite run_py_hash. cbn [final trace]. rewrite posts_app, app_nil_r. auto. Qed.

Lemma quiet_field_cache_key (prefix context : str) net w tr :
  final (run net (field_cache_key prefix context) w tr) = w /\
  posts (trace (run net (field_cache_key prefix context) w tr)) = posts tr.
Proof.
  unfold field_cache_key. destruct (str_truthy context); run_steps; [|auto].
  rewrite posts_app, app_nil_r. auto.
Qed.

Section HelperProperties.

Variable unicode_lower : str -> str.
Variable Data : Type.
Variable json_dumps : Data -> result str.

Lemma silent_is_true_text (v : pyval) net w tr :
  final (run net (is_true_text unicode_lower v) w tr) = w /\
  trace (run net (is_true_text unicode_lower v) w tr) = tr.
Proof. destruct v; cbn; auto. Qed.

Lemma frugal_field (prefix prompt : str) (data : Data) :
  frugal (context <- lift (json_dumps data) ;;
          cache_key <- field_cache_key prefix context ;;
          call_ai prompt context (Some cache_key)).
Proof.
  apply frugal_after; [intros; apply quiet_lift|]. intros context.
  apply frugal_after; [intros; apply quiet_field_cache_key|]. intros cache_key.
  apply frugal_call_ai.
Qed.

Lemma frugal_rule (prefix prompt message_content : str) :
  frugal (h <- py_hash message_content ;;
          result <- call_ai prompt [] (Some (prefix ++ str_of_int h)) ;;
          is_true_text unicode_lower result).
Proof.
  apply frugal_after; [intros; apply quiet_py_hash|]. intros h.
  apply frugal_map; [apply frugal_call_ai | intros; apply silent_is_true_text].
Qed.

Lemma frugal_flow_step (action cache_key : str) (context : Data) :
  frugal (flow_step Data json_dumps action cache_key context).
Proof.
  unfold flow_step. apply frugal_after; [intros; apply quiet_lift|]. intros text.
  apply frugal_call_ai.
Qed.

(** X9. Every function of the module keeps each cache entry it finds
    with its value, leaves the configuration and the hash secret alone,
    and posts at most one request per call: the dispatcher, the two
    adapters, and the field, rule and flow helpers. *)
Theorem module_functions_frugal (prompt context message_content : str)
    (cache_key : option str) (data : Data) :
  frugal (call_ai prompt context cache_key) /\
  frugal (_call_claude prompt context) /\
  frugal (_call_openai prompt context) /\
  frugal (compute_message_sentiment Data json_dumps data) /\
  frugal (compute_message_summary Data json_dumps data) /\
  frugal (check_rule_1 unicode_lower message_content) /\
  frugal (check_rule_2 unicode_lower message_content) /\
  frugal (flow_company_uploads_knowledge_base_step_5 Data json_dumps data) /\
  frugal (flow_customer_asks_a_question_step_3 Data json_dumps data) /\
  frugal (flow_customer_asks_a_question_step_4 Data json_dumps data) /\
  frugal (flow_ai_escalates_to_agent_step_1 Data json_dumps data).
Proof.
  repeat split;
    try apply frugal_call_ai; try apply frugal_field; try apply frugal_rule;
    try apply frugal_flow_step.
  - rewrite run_call_claude. reflexivity.
  - rewrite run_call_claude. apply with_cache_same.
  - rewrite run_call_claude. cbn [trace]. right. rewrite posts_app. eauto.
  - rewrite run_call_openai. reflexivity.
  - rewrite run_call_openai. apply with_cache_same.
  - rewrite run_call_openai. cbn [trace]. right. rewrite posts_app. eauto.
Qed.

End HelperProperties.

(** *** Text helpers *)

Lemma lit_inj (s1 s2 : string) : lit s1 = lit s2 -> s1 = s2.
Proof.
  unfold lit. intros H.
  rewrite <- (string_of_list_ascii_of_string s1), <- (string_of_list_ascii_of_string s2).
  f_equal. revert H.
  generalize (list_ascii_of_string s1) as l1, (list_ascii_of_string s2) as l2.
  induction l1 as [|a l1 IH]; intros [|b l2] H; try discriminate; [reflexivity|].
  cbn [map] in H. injection H as Hab Hl. f_equal; [|apply IH; exact Hl].
  apply N2Z.inj in Hab.
  rewrite <- (ascii_N_embedding a), <- (ascii_N_embedding b), Hab. reflexivity.
Qed.

Lemma str_of_int_inj (a b : Z) : str_of_int a = str_of_int b -> a = b.
Proof.
  unfold str_of_int. intros H. apply lit_inj in H.
  assert (Hback : forall z,
    option_map Z.of_int (NilZero.int_of_string (NilZero.string_of_int (Z.to_int z)))
    = Some z).
  { intros z. pose proof (DecimalZ.of_to z) as Hz.
    destruct (Z.to_int z) as [u|u] eqn:Hu.
    - destruct u; try (rewrite NilZero.isi by discriminate; cbn [option_map];
                       rewrite Hz; reflexivity).
      rewrite NilZero.isi_posnil. cbn [option_map]. rewrite <- Hz. reflexivity.
    - destruct u; try (rewrite NilZero.isi by discriminate; cbn [option_map];
                       rewrite Hz; reflexivity).
      rewrite NilZero.isi_negnil. cbn [option_map]. rewrite <- Hz. reflexivity. }
  pose proof (Hback a) as Ha. rewrite H, Hback in Ha. congruence.
Qed.

Lemma uint_text_ascii (u : Decimal.uint) :
  Forall (fun c => c < 0x80) (lit (NilEmpty.string_of_uint u)).
Proof. induction u; cbn; constructor; (lia || assumption). Qed.

Lemma str_of_int_ascii (n : Z) : Forall (fun c => c < 0x80) (str_of_int n).
Proof.
  unfold str_of_int, NilZero.string_of_int, NilZero.string_of_uint.
  destruct (Z.to_int n) as [u|u].
  - destruct u; try apply uint_text_ascii. cbn. constructor; [lia | constructor].
  - change (Forall (fun c => c < 0x80)
              (0x2D :: lit match u with
                           | Decimal.Nil => "0"%string
                           | _ => NilEmpty.string_of_uint u
                           end)).
    constructor; [lia|].
    destruct u; try apply uint_text_ascii. cbn. constructor; [lia | constructor].
Qed.

Lemma forallb_Forall_lt (s : str) :
  forallb (fun c => c <? 0x80) s = true -> Forall (fun c => c < 0x80) s.
Proof.
  intros H. apply List.Forall_forall. intros c Hc.
  rewrite forallb_forall in H. apply Z.ltb_lt, H, Hc.
Qed.

(** *** [strip] *)

Lemma lstrip_spaces (ws s : str) :
  Forall (fun c => isspace c = true) ws -> lstrip (ws ++ s) = lstrip s.
Proof.
  induction 1 as [|c ws Hc _ IH]; [reflexivity|].
  cbn [app lstrip]. rewrite Hc. exact IH.
Qed.

Lemma lstrip_all_spaces (ws : str) :
  Forall (fun c => isspace c = true) ws -> lstrip ws = [].
Proof.
  intros H. rewrite <- (app_nil_r ws). rewrite lstrip_spaces by exact H. reflexivity.
Qed.

Lemma lstrip_app (s t : str) :
  lstrip s <> [] -> lstrip (s ++ t) = lstrip s ++ t.
Proof.
  induction s as [|c s IH]; intros H; [contradiction|].
  cbn [app lstrip] in *. destruct (isspace c); [apply IH; exact H | reflexivity].
Qed.

Lemma lstrip_nil_spaces (s : str) :
  lstrip s = [] -> Forall (fun c => isspace c = true) s.
Proof.
  induction s as [|c s IH]; intros H; [constructor|].
  cbn [lstrip] in H. destruct (isspace c) eqn:Hc; [|discriminate].
  constructor; [exact Hc | apply IH; exact H].
Qed.

Lemma rstrip_spaces (s ws : str) :
  Forall (fun c => isspace c = true) ws -> rstrip (s ++ ws) = rstrip s.
Proof.
  intros H. unfold rstrip. rewrite rev_app_distr, lstrip_spaces; [reflexivity|].
  apply List.Forall_forall. intros c Hc. rewrite List.Forall_forall in H.
  apply H, in_rev. exact Hc.
Qed.

Lemma strip_padding (ws1 r ws2 : str) :
  Forall (fun c => isspace c = true) ws1 ->
  Forall (fun c => isspace c = true) ws2 ->
  strip (ws1 ++ r ++ ws2) = strip r.
Proof.
  intros H1 H2. unfold strip. rewrite lstrip_spaces by exact H1.
  destruct (lstrip r) as [|c rest] eqn:Hr.
  - rewrite lstrip_all_spaces; [reflexivity|].
    apply Forall_app. split; [apply lstrip_nil_spaces; exact Hr | exact H2].
  - rewrite lstrip_app by (rewrite Hr; discriminate).
    rewrite Hr. apply rstrip_spaces. exact H2.
Qed.

Lemma isascii_lstrip (s : str) : isascii s = true -> isascii (lstrip s) = true.
Proof.
  induction s as [|c s IH]; [reflexivity|]. intros H.
  cbn [lstrip]. destruct (isspace c); [|exact H].
  apply IH. unfold isascii in *. cbn [forallb] in H.
  apply andb_true_iff in H. apply H.
Qed.

Lemma isascii_rev (s : str) : isascii s = true -> isascii (rev s) = true.
Proof.
  unfold isascii. rewrite !forallb_forall. intros H c Hc. apply H, in_rev. exact Hc.
Qed.

Lemma isascii_strip (s : str) : isascii s = true -> isascii (strip s) = true.
Proof.
  intros H. unfold strip, rstrip.
  apply isascii_rev, isascii_lstrip, isascii_rev, isascii_lstrip, H.
Qed.

Lemma ascii_lower_is (c lower upper : Z) :
  0x61 <= lower <= 0x7A -> upper = lower - 0x20 ->
  ascii_lower c = lower <-> c = upper \/ c = lower.
Proof.
  intros Hl ->. unfold ascii_lower.
  destruct ((0x41 <=? c) && (c <=? 0x5A)) eqn:H.
  - apply andb_true_iff in H. lia.
  - apply andb_false_iff in H. lia.
Qed.

(** With a key, the first step of [call_ai] is the membership test. *)
Lemma call_ai_lone_surrogate_free (net : network) (prompt context hint : str)
    (w : process) (tr : list event) :
  str_truthy hint = true ->
  forall id, cache_id_of hint prompt context = inr id ->
  exists evs, trace (run net (call_ai prompt context (Some hint)) w tr)
              = tr ++ ECacheContains id :: evs.
Proof.
  intros Hk id Hid. destruct (_ai_cache w !! id) as [v|] eqn:Hv.
  - rewrite (run_call_ai_hit net _ _ _ _ _ _ _ Hk Hid Hv). cbn [trace]. eauto.
  - rewrite (run_call_ai_miss net _ _ _ _ _ _ Hk Hid Hv). cbn zeta.
    destruct (adapter_result net w tr prompt context); cbn [trace];
      rewrite <- ?app_assoc; cbn [app]; eauto.
Qed.

Section RuleVerdict.

Variable unicode_lower : str -> str.

(** X10. The verdict of a rule helper does not see whitespace around the
    answer: padding the text on either side with whitespace of any kind
    Python knows (spaces, newlines, no-break spaces, ...) leaves the result
    of [result.strip().lower() == "true"] as it is. *)
Theorem rule_verdict_ignores_padding (ws1 r ws2 : str) :
  Forall (fun c => isspace c = true) ws1 ->
  Forall (fun c => isspace c = true) ws2 ->
  is_true_text unicode_lower (PStr (ws1 ++ r ++ ws2)) =
  is_true_text unicode_lower (PStr r).
Proof.
  intros H1 H2. cbn [is_true_text]. rewrite strip_padding by assumption. reflexivity.
Qed.

(** X11. On ASCII text the verdict is true exactly when what is left
    after stripping is one of the sixteen spellings of "true" in upper and
    lower case. *)
Theorem rule_verdict_ascii (r : str) :
  isascii r = true ->
  is_true_text unicode_lower (PStr r) = Ret true <->
  exists c1 c2 c3 c4,
    strip r = [c1; c2; c3; c4] /\
    (c1 = 0x54 \/ c1 = 0x74) /\ (c2 = 0x52 \/ c2 = 0x72) /\
    (c3 = 0x55 \/ c3 = 0x75) /\ (c4 = 0x45 \/ c4 = 0x65).
Proof.
  intros Ha. cbn [is_true_text]. unfold lower.
  rewrite (isascii_strip r Ha).
  assert (Ht : lit "true" = [0x74; 0x72; 0x75; 0x65]) by reflexivity.
  rewrite Ht. unfold str_eqb. split.
  - intros H. injection H as H. apply bool_decide_eq_true in H.
    destruct (strip r) as [|c1 [|c2 [|c3 [|c4 [|c5 rest]]]]]; try discriminate.
    cbn [map] in H. injection H as H1 H2 H3 H4.
    exists c1, c2, c3, c4. split; [reflexivity|].
    apply (ascii_lower_is c1 0x74 0x54) in H1; [|lia|reflexivity].
    apply (ascii_lower_is c2 0x72 0x52) in H2; [|lia|reflexivity].
    apply (ascii_lower_is c3 0x75 0x55) in H3; [|lia|reflexivity].
    apply (ascii_lower_is c4 0x65 0x45) in H4; [|lia|reflexivity].
    auto.
  - intros (c1 & c2 & c3 & c4 & -> & H1 & H2 & H3 & H4). f_equal.
    apply bool_decide_eq_true. cbn [map].
    apply (ascii_lower_is c1 0x74 0x54) in H1; [|lia|reflexivity].
    apply (ascii_lower_is c2 0x72 0x52) in H2; [|lia|reflexivity].
    apply (ascii_lower_is c3 0x75 0x55) in H3; [|lia|reflexivity].
    apply (ascii_lower_is c4 0x65 0x45) in H4; [|lia|reflexivity].
    congruence.
Qed.

(** How a rule helper ends when the dispatcher hands it something that is
    no text. *)
Lemma rule_non_text (net : network) (prompt prefix message_content : str)
    (v : pyval) (w : process) (tr : list event) :
  str_truthy prefix = true ->
  (forall s, v <> PStr s) ->
  let rule := (h <- py_hash message_content ;;
               result <- call_ai prompt [] (Some (prefix ++ str_of_int h)) ;;
               is_true_text unicode_lower result) in
  let h := str_of_int (PyHash.hash (hash_secret w) message_content) in
  value (run net (call_ai prompt [] (Some (prefix ++ h))) w (tr ++ [EHash message_content]))
    = inr v ->
  let o1 := run net rule w tr in
  let o2 := run net rule (final o1) (trace o1) in
  value o1 = inl AttributeError /\
  value o2 = inl AttributeError /\
  posts (trace o2) = posts (trace o1).
Proof.
  intros Hp Hv rule h Hr o1 o2.
  assert (Hk : str_truthy (prefix ++ h) = true)
    by (destruct prefix; [discriminate | reflexivity]).
  set (oc := run net (call_ai prompt [] (Some (prefix ++ h))) w
               (tr ++ [EHash message_content])) in *.
  assert (Ho1 : o1 = Outcome (final oc) (trace oc) (inl AttributeError)).
  { subst o1 rule. rewrite run_rule. cbn zeta. fold h oc. rewrite Hr.
    clear -Hv. destruct v; try reflexivity. exfalso. eapply Hv. reflexivity. }
  destruct (call_ai_success_cached net prompt [] (prefix ++ h) w
              (tr ++ [EHash message_content]) v Hk Hr) as (id & Hid & Hcached & _).
  fold oc in Hcached.
  assert (Hsecret : hash_secret (final oc) = hash_secret w).
  { destruct (call_ai_final net prompt [] (Some (prefix ++ h)) w
                (tr ++ [EHash message_content])) as [Hf | (? & ? & _ & _ & _ & _ & Hf)];
      fold oc in Hf; rewrite Hf; reflexivity. }
  assert (Ho2 : o2 = Outcome (final oc)
                       ((trace oc ++ [EHash message_content])
                        ++ [ECacheContains id; ECacheGet id]) (inl AttributeError)).
  { subst o2 rule. rewrite Ho1. cbn [final trace]. rewrite run_rule. cbn zeta.
    rewrite Hsecret. fold h.
    rewrite (run_call_ai_hit net _ _ _ _ _ _ _ Hk Hid Hcached). cbn [final trace value].
    clear -Hv. destruct v; try reflexivity. exfalso. eapply Hv. reflexivity. }
  rewrite Ho1, Ho2. cbn [value trace]. repeat split.
  rewrite !posts_app. cbn [posts]. rewrite !app_nil_r. reflexivity.
Qed.

(** X12. An answer that is no text poisons a rule. When the provider's
    "text" is not a string (null, a number, a list), the helper raises
    [AttributeError], yet the value has been cached: the next call with the
    same argument raises again without asking the provider. *)
Theorem rule_non_text_answer_is_cached (net : network) (message_content : str)
    (v : pyval) (w : process) (tr : list event) :
  (forall s, v <> PStr s) ->
  let h := str_of_int (PyHash.hash (hash_secret w) message_content) in
  let tr' := tr ++ [EHash message_content] in
  let twice helper :=
    let o1 := run net (helper message_content) w tr in
    let o2 := run net (helper message_content) (final o1) (trace o1) in
    value o1 = inl AttributeError /\
    value o2 = inl AttributeError /\
    posts (trace o2) = posts (trace o1) in
  (value (run net (call_ai RULE_1_PROMPT [] (Some (lit "rule_1_" ++ h))) w tr') = inr v ->
   twice (check_rule_1 unicode_lower)) /\
  (value (run net (call_ai RULE_2_PROMPT [] (Some (lit "rule_2_" ++ h))) w tr') = inr v ->
   twice (check_rule_2 unicode_lower)).
Proof.
  intros Hv h tr' twice. split; intros Hr.
  - exact (rule_non_text net RULE_1_PROMPT (lit "rule_1_") message_content v w tr
             eq_refl Hv Hr).
  - exact (rule_non_text net RULE_2_PROMPT (lit "rule_2_") message_content v w tr
             eq_refl Hv Hr).
Qed.

(** X13. A rule helper always gets as far as the cache, whatever its
    argument holds, lone surrogates included: the argument is only hashed,
    the hint and the prompt are ASCII, so the key can always be derived and
    the first two steps are the hash and the membership test. *)
Theorem rule_helpers_always_derive_key (net : network) (message_content : str)
    (w : process) (tr : list event) :
  let h := str_of_int (PyHash.hash (hash_secret w) message_content) in
  (exists id evs,
      cache_id_of (lit "rule_1_" ++ h) RULE_1_PROMPT [] = inr id /\
      trace (run net (check_rule_1 unicode_lower message_content) w tr)
        = tr ++ EHash message_content :: ECacheContains id :: evs) /\
  (exists id evs,
      cache_id_of (lit "rule_2_" ++ h) RULE_2_PROMPT [] = inr id /\
      trace (run net (check_rule_2 unicode_lower message_content) w tr)
        = tr ++ EHash message_content :: ECacheContains id :: evs).
Proof.
  intros h.
  assert (Hgen : forall what prefix,
    str_truthy (lit prefix) = true ->
    forallb (fun c => c <? 0x80) (lit prefix) = true ->
    forallb (fun c => c <? 0x80) (rule_prompt (lit what)) = true ->
    exists id evs,
      cache_id_of (lit prefix ++ h) (rule_prompt (lit what)) [] = inr id /\
      trace (run net (n <- py_hash message_content ;;
                      result <- call_ai (rule_prompt (lit what)) []
                                  (Some (lit prefix ++ str_of_int n)) ;;
                      is_true_text unicode_lower result) w tr)
        = tr ++ EHash message_content :: ECacheContains id :: evs).
  { intros what prefix Hp Hpa Hwa.
    assert (Hk : str_truthy (lit prefix ++ h) = true)
      by (destruct (lit prefix); [discriminate | reflexivity]).
    assert (Henc : encode (cache_message (lit prefix ++ h) (rule_prompt (lit what)) [])
                   = Some (cache_message (lit prefix ++ h) (rule_prompt (lit what)) [])).
    { apply encode_ascii. unfold cache_message.
      set (P := rule_prompt (lit what)) in *. clearbody P.
      repeat (apply Forall_app; split);
        first [ apply str_of_int_ascii
              | apply forallb_Forall_lt; first [assumption | reflexivity]
              | constructor ]. }
    eexists. rewrite run_rule. cbn zeta. cbn [trace]. fold h.
    pose proof (call_ai_lone_surrogate_free net (rule_prompt (lit what)) []
                  (lit prefix ++ h) w (tr ++ [EHash message_content]) Hk) as Hfree.
    unfold cache_id_of in Hfree |- *. rewrite Henc in Hfree |- *.
    destruct (Hfree _ eq_refl) as (evs & Htr).
    exists evs. split; [reflexivity|].
    etransitivity; [exact Htr|]. rewrite <- app_assoc. reflexivity. }
  split.
  - exact (Hgen "sounds frustrated or angry"%string "rule_1_"%string
             eq_refl eq_refl eq_refl).
  - exact (Hgen "looks like spam or marketing"%string "rule_2_"%string
             eq_refl eq_refl eq_refl).
Qed.

End RuleVerdict.

Lemma rule_verdict_ignores_padding_witness :
  let ws1 := [0x20; 0x0A] in
  let ws2 := [0xA0] in
  (Forall (fun c => isspace c = true) ws1 /\ Forall (fun c => isspace c = true) ws2) /\
  is_true_text (fun s => s) (PStr (ws1 ++ lit "True" ++ ws2)) =
  is_true_text (fun s => s) (PStr (lit "True")).
Proof.
  intros ws1 ws2.
  assert (H1 : Forall (fun c => isspace c = true) ws1) by (repeat constructor).
  assert (H2 : Forall (fun c => isspace c = true) ws2) by (repeat constructor).
  split; [split; assumption|].
  exact (rule_verdict_ignores_padding (fun s => s) ws1 (lit "True") ws2 H1 H2).
Defined.

Lemma rule_verdict_ascii_witness :
  isascii (lit " tRuE ") = true /\
  (is_true_text (fun s => s) (PStr (lit " tRuE ")) = Ret true <->
   exists c1 c2 c3 c4,
     strip (lit " tRuE ") = [c1; c2; c3; c4] /\
     (c1 = 0x54 \/ c1 = 0x74) /\ (c2 = 0x52 \/ c2 = 0x72) /\
     (c3 = 0x55 \/ c3 = 0x75) /\ (c4 = 0x45 \/ c4 = 0x65)).
Proof.
  split; [reflexivity|].
  exact (rule_verdict_ascii (fun s => s) (lit " tRuE ") eq_refl).
Defined.

Lemma rule_non_text_answer_is_cached_witness :
  let text := lit "This is the third time I ask!" in
  let h := str_of_int (PyHash.hash (hash_secret demo_process) text) in
  let o1 := run net_claude_null (check_rule_1 (fun s => s) text) demo_process [] in
  let o2 := run net_claude_null (check_rule_1 (fun s => s) text) (final o1) (trace o1) in
  ((forall s, PNone <> PStr s) /\
   value (run net_claude_null (call_ai RULE_1_PROMPT [] (Some (lit "rule_1_" ++ h)))
            demo_process ([] ++ [EHash text])) = inr PNone) /\
  value o1 = inl AttributeError /\
  value o2 = inl AttributeError /\
  posts (trace o2) = posts (trace o1).
Proof.
  intros text h o1 o2.
  assert (Hv : forall s, PNone <> PStr s) by (intros s; discriminate).
  assert (Hr : value (run net_claude_null
                        (call_ai RULE_1_PROMPT [] (Some (lit "rule_1_" ++ h)))
                        demo_process ([] ++ [EHash text])) = inr PNone)
    by (vm_compute; reflexivity).
  split; [split; assumption|].
  exact (proj1 (rule_non_text_answer_is_cached (fun s => s) net_claude_null text PNone
                  demo_process [] Hv) Hr).
Defined.

(* ===================================================================== *)
(** ** Further properties of the field and flow helpers *)
(* ===================================================================== *)

(** X14. The hint of a field helper tells hash values apart: for a
    serialised context that is not empty, two processes get the same hint
    exactly when their [hash] of the context is the same. *)
Theorem field_cache_key_follows_hash (net1 net2 : network) (prefix context : str)
    (w1 w2 : process) (tr1 tr2 : list event) :
  str_truthy context = true ->
  value (run net1 (field_cache_key prefix context) w1 tr1) =
  value (run net2 (field_cache_key prefix context) w2 tr2) <->
  PyHash.hash (hash_secret w1) context = PyHash.hash (hash_secret w2) context.
Proof.
  intros Hc. unfold field_cache_key. rewrite Hc. run_steps. split.
  - intros H. injection H as H. apply app_inv_head in H.
    apply str_of_int_inj. exact H.
  - intros ->. reflexivity.
Qed.

Lemma field_cache_key_follows_hash_witness :
  let context := lit "{" ++ dquote ++ lit "body" ++ dquote ++ lit ": "
                 ++ dquote ++ lit "I love this!" ++ dquote ++ lit "}" in
  let w1 := with_secret demo_process (PyHash.secret_of_seed 1) in
  let w2 := with_secret demo_process (PyHash.secret_of_seed 2) in
  let net := net_claude_says (lit "positive") in
  str_truthy context = true /\
  PyHash.hash (hash_secret w1) context <> PyHash.hash (hash_secret w2) context /\
  value (run net (field_cache_key (lit "Message_sentiment_") context) w1 []) <>
  value (run net (field_cache_key (lit "Message_sentiment_") context) w2 []).
Proof.
  intros context w1 w2 net.
  assert (Hne : PyHash.hash (hash_secret w1) context
                <> PyHash.hash (hash_secret w2) context)
    by (vm_compute; discriminate).
  split; [reflexivity|]. split; [exact Hne|].
  intros Heq. apply Hne.
  exact (proj1 (field_cache_key_follows_hash net net (lit "Message_sentiment_") context
                  w1 w2 [] [] eq_refl) Heq).
Defined.

Section FieldAndFlow.

Variable Data : Type.
Variable json_dumps : Data -> result str.

Lemma run_flow_step (net : network) (action cache_key text : str) (context : Data) w tr :
  json_dumps context = inr text ->
  run net (flow_step Data json_dumps action cache_key context) w tr =
  run net (call_ai (flow_prompt action) text (Some cache_key)) w tr.
Proof. intros H. unfold flow_step. run_steps. rewrite H. reflexivity. Qed.

Lemma run_field (net : network) (prefix prompt text : str) (data : Data) w tr :
  json_dumps data = inr text ->
  exists hint tr',
    (if str_truthy text
     then hint = prefix ++ str_of_int (PyHash.hash (hash_secret w) text) /\
          tr' = tr ++ [EHash text]
     else hint = prefix ++ lit "empty" /\ tr' = tr) /\
    posts tr' = posts tr /\
    run net (context <- lift (json_dumps data) ;;
             cache_key <- field_cache_key prefix context ;;
             call_ai prompt context (Some cache_key)) w tr =
    run net (call_ai prompt text (Some hint)) w tr'.
Proof.
  intros H. run_steps. rewrite H. unfold field_cache_key.
  destruct (str_truthy text); run_steps.
  - eexists _, _. split; [split; reflexivity|]. split; [|reflexivity].
    rewrite posts_app. apply app_nil_r.
  - eexists _, _. split; [split; reflexivity|]. split; reflexivity.
Qed.

(** X15. What the field and flow helpers send. When the serialisation of
    the caller's data raises, the helper raises that exception and has
    done nothing. Otherwise it posts nothing (a cache hit) or posts one
    request of the selected adapter, carrying the helper's fixed prompt
    and the serialised data as context. *)
Theorem field_and_flow_requests (net : network) (data : Data)
    (w : process) (tr : list event) :
  let sends (helper : Data -> prog pyval) (prompt : str) :=
    let o := run net (helper data) w tr in
    (forall e, json_dumps data = inl e -> o = Outcome w tr (inl e)) /\
    (forall text, json_dumps data = inr text ->
       posts (trace o) = posts tr \/
       posts (trace o) = posts tr ++ [selected_request w prompt text]) in
  sends (compute_message_sentiment Data json_dumps) SENTIMENT_PROMPT /\
  sends (compute_message_summary Data json_dumps) SUMMARY_PROMPT /\
  sends (flow_company_uploads_knowledge_base_step_5 Data json_dumps)
        (flow_prompt (lit "indexes it for search")) /\
  sends (flow_customer_asks_a_question_step_3 Data json_dumps)
        (flow_prompt (lit "search knowledge base for relevant articles")) /\
  sends (flow_customer_asks_a_question_step_4 Data json_dumps)
        (flow_prompt (lit "generate answer based on knowledge base context")) /\
  sends (flow_ai_escalates_to_agent_step_1 Data json_dumps)
        (flow_prompt (lit "confidence score below 60 percent")).
Proof.
  intros sends.
  assert (Hfield : forall prefix prompt,
    let o := run net (context <- lift (json_dumps data) ;;
                      cache_key <- field_cache_key prefix context ;;
                      call_ai prompt context (Some cache_key)) w tr in
    (forall e, json_dumps data = inl e -> o = Outcome w tr (inl e)) /\
    (forall text, json_dumps data = inr text ->
       posts (trace o) = posts tr \/
       posts (trace o) = posts tr ++ [selected_request w prompt text])).
  { intros prefix prompt o. split.
    - intros e He. subst o. run_steps. rewrite He. reflexivity.
    - intros text Ht. subst o.
      destruct (run_field net prefix prompt text data w tr Ht)
        as (hint & tr' & _ & Hp & ->).
      rewrite <- Hp. apply call_ai_posts. }
  assert (Hflow : forall action key,
    let o := run net (flow_step Data json_dumps action key data) w tr in
    (forall e, json_dumps data = inl e -> o = Outcome w tr (inl e)) /\
    (forall text, json_dumps data = inr text ->
       posts (trace o) = posts tr \/
       posts (trace o) = posts tr ++ [selected_request w (flow_prompt action) text])).
  { intros action key o. split.
    - intros e He. subst o. unfold flow_step. run_steps. rewrite He. reflexivity.
    - intros text Ht. subst o. rewrite (run_flow_step net _ _ _ _ _ _ Ht).
      apply call_ai_posts. }
  repeat split; first [apply Hfield | apply Hflow].
Qed.

(** X16. The keys of the flow helpers are the same in every process.
    Their hint is a constant, so for a given serialised context the cache
    operations of a flow step use one key, whatever the configuration,
    the cache contents and the hash secret of the process. *)
Theorem flow_keys_same_in_every_process (net1 net2 : network) (data : Data)
    (text : str) (w1 w2 : process) (tr1 tr2 : list event) :
  json_dumps data = inr text ->
  let same (helper : Data -> prog pyval) :=
    exists evs1 evs2,
      trace (run net1 (helper data) w1 tr1) = tr1 ++ evs1 /\
      trace (run net2 (helper data) w2 tr2) = tr2 ++ evs2 /\
      forall k1 k2, In k1 (cache_keys evs1) -> In k2 (cache_keys evs2) -> k1 = k2 in
  same (flow_company_uploads_knowledge_base_step_5 Data json_dumps) /\
  same (flow_customer_asks_a_question_step_3 Data json_dumps) /\
  same (flow_customer_asks_a_question_step_4 Data json_dumps) /\
  same (flow_ai_escalates_to_agent_step_1 Data json_dumps).
Proof.
  intros Ht same.
  assert (Hgen : forall action key,
    str_truthy (lit key) = true ->
    same (flow_step Data json_dumps (lit action) (lit key))).
  { intros action key Hk. unfold same.
    rewrite !(run_flow_step _ _ _ _ _ _ _ Ht).
    apply call_ai_key_same_in_every_process. exact Hk. }
  repeat split; apply Hgen; reflexivity.
Qed.

End FieldAndFlow.

Lemma flow_keys_same_in_every_process_witness :
  let dumps := fun v : pyval => inr (Json.dumps v) : result str in
  let data := PDict [(lit "question", PStr (lit "How do I reset my password?"))] in
  let text := Json.dumps data in
  let w1 := with_secret demo_process (PyHash.secret_of_seed 1) in
  let w2 := with_provider (with_secret warm_process (PyHash.secret_of_seed 2)) (lit "openai") in
  let net := net_claude_says (lit "see article 12") in
  dumps data = inr text /\
  exists evs1 evs2,
    trace (run net (flow_customer_asks_a_question_step_3 pyval dumps data) w1 [])
      = [] ++ evs1 /\
    trace (run net (flow_customer_asks_a_question_step_3 pyval dumps data) w2 [])
      = [] ++ evs2 /\
    forall k1 k2, In k1 (cache_keys evs1) -> In k2 (cache_keys evs2) -> k1 = k2.
Proof.
  intros dumps data text w1 w2 net.
  split; [reflexivity|].
  exact (proj1 (proj2 (flow_keys_same_in_every_process pyval dumps net net data text
                         w1 w2 [] [] eq_refl))).
Defined.

(** *** [json.dumps] writes ASCII *)














